(** * A board-game platform: controller, console client and GUI guards

    Shallow embedding of [core/controller.py], [ui/cli.py] and the
    state-relevant part of [ui/gui.py].  Python objects become records,
    methods become computations in a state-and-exception monad whose state
    survives a raised exception (an object mutated before a [raise] stays
    mutated), dictionaries become [gmap]s.

    The rule engines ([games.gomoku], [games.go]), [core.models] and
    [core.persistence] are imported by the sources but are not part of them.
    The controller is therefore written against an engine interface
    ([Engine.Ops]); a concrete engine following the written specification is
    given in [SpecEngine]. *)

From Stdlib Require Import ZArith String Ascii List Lia Bool QArith Qround.
From stdpp Require Import base option gmap strings list pretty.

Set Warnings "-register-all".
Set Default Proof Using "Type".

Open Scope Z_scope.

(* ===================================================================== *)
(** * Python values, exceptions and the method monad *)
(* ===================================================================== *)

(** JSON-like dynamic values: what a save file holds.  Numbers are
    integers; booleans and floating-point numbers do not occur in the
    records modelled here. *)
Inductive value : Type :=
| VNone
| VInt (n : Z)
| VStr (s : string)
| VList (l : list value)
| VDict (m : gmap string value).

(** Failure causes named by the engine contract. *)
Inductive RuleError : Type :=
| NotYourTurn
| OccupiedCell
| OutOfBounds
| GameFinished
| IllegalMove (why : string)
| UnsupportedOperation
| NoMovesToUndo
| UndoExhausted
| GameNotFinished
| UnknownGameType
| CorruptSave.

(** Python exceptions that the modelled code raises or lets through. *)
Inductive exn : Type :=
| ValueError (msg : string)
| IOError (msg : string)
| TypeError (msg : string)
| AttributeError (msg : string)
| ZeroDivisionError
| EngineError (e : RuleError).

Inductive result (A : Type) : Type :=
| Ok (a : A)
| Raise (e : exn).
Arguments Ok {A} a.
Arguments Raise {A} e.

Definition is_ok {A} (r : result A) : bool :=
  match r with Ok _ => true | Raise _ => false end.

#[global] Instance result_ret : MRet result := fun A a => Ok a.
#[global] Instance result_bind : MBind result := fun A B f r =>
  match r with Ok a => f a | Raise e => Raise e end.

(** A method on an object of state [S]: it returns or raises, and in both
    cases leaves the object in some state. *)
Definition M (S A : Type) : Type := S -> result A * S.

#[global] Instance M_ret {S} : MRet (M S) := fun A a s => (Ok a, s).
#[global] Instance M_bind {S} : MBind (M S) := fun A B f m s =>
  match m s with
  | (Ok a, s') => f a s'
  | (Raise e, s') => (Raise e, s')
  end.

Definition raise {S A} (e : exn) : M S A := fun s => (Raise e, s).
Definition get {S} : M S S := fun s => (Ok s, s).
Definition gets {S A} (f : S -> A) : M S A := fun s => (Ok (f s), s).
Definition modify {S} (f : S -> S) : M S unit := fun s => (Ok tt, f s).
Definition lift {S A} (r : result A) : M S A := fun s => (r, s).

(** [try: m except h]: run [m]; when it raises [e] and the handler accepts
    [e], continue with the handler in the state [m] left behind. *)
Definition try_except {S A} (m : M S A) (h : exn -> option (M S A)) : M S A :=
  fun s =>
    match m s with
    | (Ok a, s') => (Ok a, s')
    | (Raise e, s') =>
        match h e with
        | Some k => k s'
        | None => (Raise e, s')
        end
    end.

(** Run a method of a component stored inside a larger object. *)
Definition zoom {S T A} (proj : S -> T) (inj : T -> S -> S) (m : M T A) : M S A :=
  fun s => let '(r, t') := m (proj s) in (r, inj t' s).

(* ===================================================================== *)
(** * core.models *)
(* ===================================================================== *)

(** Modelled from the spec: [core.models] is not among the sources.  Its
    [GameType] is the closed enumeration of the two variants. *)
Inductive GameType : Type := GOMOKU | GO.

(** Modelled from the spec: [core.models.PlayerColor], the enumeration of
    the two colours (section 3). *)
Inductive PlayerColor : Type := BLACK | WHITE.

#[global] Instance GameType_eq_dec : EqDecision GameType.
Proof. solve_decision. Defined.
#[global] Instance PlayerColor_eq_dec : EqDecision PlayerColor.
Proof. solve_decision. Defined.

(** Modelled from the spec: [core.models.Position], a pair of integers
    counted from 0; the constructor takes no board size and so cannot check
    the position against one. *)
Record Position : Type := mkPosition { row : Z; col : Z }.

(** Modelled from the spec: the causes of a result and
    [core.models.GameResult] (section 3). *)
Inductive Reason : Type :=
| five_in_a_row
| resignation
| two_consecutive_passes_scored
| board_full_draw.

Record GameResult : Type := mkGameResult {
  winner : option PlayerColor;
  reason : Reason
}.

Definition opposite (c : PlayerColor) : PlayerColor :=
  match c with BLACK => WHITE | WHITE => BLACK end.

(** Modelled from the spec: the [GameType] enumeration of [core.models] is
    not among the sources.  Its two members carry the tags the user
    interfaces pass around ([start <gomoku|go> <size>] in the console, the
    values of [game_type_options] in the GUI). *)
Definition GameType_value (g : GameType) : string :=
  match g with GOMOKU => "gomoku" | GO => "go" end.

(** Text of a value inside an error message; containers are abbreviated. *)
Definition repr (v : value) : string :=
  match v with
  | VNone => "None"
  | VInt n => pretty n
  | VStr s => "'" +:+ s +:+ "'"
  | VList _ => "[...]"
  | VDict _ => "{...}"
  end.

(** Modelled from the spec: [GameType(v)], the enumeration lookup by value;
    Python raises [ValueError] for anything that is not a member's value. *)
Definition GameType_of_value (v : value) : result GameType :=
  match v with
  | VStr s =>
      if decide (s = "gomoku") then Ok GOMOKU
      else if decide (s = "go") then Ok GO
      else Raise (ValueError (repr v +:+ " is not a valid GameType"))
  | _ => Raise (ValueError (repr v +:+ " is not a valid GameType"))
  end.

(** Modelled from the spec: [game_type_from_string] of [core.models] is not
    among the sources; it maps the tag typed by the user to the member and
    raises [ValueError] otherwise. *)
Definition game_type_from_string (s : string) : result GameType :=
  if decide (s = "gomoku") then Ok GOMOKU
  else if decide (s = "go") then Ok GO
  else Raise (ValueError ("Unknown game type: " +:+ s)).

(** Modelled from the spec: the board class is not among the sources.
    Section 4.1 describes it as a typed grid with bounds checking and no
    knowledge of the rules; its constructor is given no failure. *)
Module Board.
Record t : Type := mk { size : Z; cells : gmap (Z * Z) PlayerColor }.

Definition in_bounds (b : t) (p : Position) : bool :=
  (0 <=? row p) && (row p <? size b) && (0 <=? col p) && (col p <? size b).

Definition get (b : t) (p : Position) : result (option PlayerColor) :=
  if in_bounds b p then Ok (cells b !! (row p, col p))
  else Raise (EngineError OutOfBounds).

Definition set (b : t) (p : Position) (c : option PlayerColor) : t :=
  mk (size b)
     (match c with
      | Some k => <[(row p, col p) := k]> (cells b)
      | None => delete (row p, col p) (cells b)
      end).

Definition empty (n : Z) : t := mk n ∅.

Definition positions (b : t) : list Position :=
  r ← seqZ 0 (size b); (fun c => mkPosition r c) <$> seqZ 0 (size b).

Definition is_full (b : t) : bool :=
  forallb (fun p => bool_decide (is_Some (cells b !! (row p, col p)))) (positions b).
End Board.

(* ===================================================================== *)
(** * The engine contract consumed by the controller *)
(* ===================================================================== *)

(** [games.gomoku.GomokuEngine] and [games.go.GoEngine] are used by the
    controller through one set of methods and read accessors.  A method may
    raise, and is not assumed to leave the engine untouched when it does. *)
Module Engine.
Class Ops (E : Type) : Type := {
  GomokuEngine : Z -> result E;
  GoEngine : Z -> result E;
  play_move : Position -> M E unit;
  pass_turn : M E unit;
  undo : M E unit;
  resign : PlayerColor -> M E unit;
  restart : M E unit;
  serialize : M E value;
  deserialize : value -> M E unit;
  current_player : E -> PlayerColor;
  is_finished : E -> bool;
  get_result : E -> result GameResult;
  stones_on_board : PlayerColor -> E -> Z;
  stones_remaining : PlayerColor -> E -> Z;
  undo_remaining : PlayerColor -> E -> Z;
  board : E -> Board.t
}.
End Engine.

(* ===================================================================== *)
(** * core.persistence *)
(* ===================================================================== *)

(** Modelled from the spec: [core.persistence] is not among the sources.  A
    save file is read and written as a whole and holds one record; reading a
    path that holds nothing is an I/O failure. *)
Module persistence.
Abbreviation files := (gmap string (gmap string value)).

Definition save_game (file_path : string) (payload : gmap string value)
    (fs : files) : result files :=
  Ok (<[file_path := payload]> fs).

Definition load_game (file_path : string) (fs : files)
    : result (gmap string value) :=
  match fs !! file_path with
  | Some payload => Ok payload
  | None => Raise (IOError ("cannot read " +:+ file_path))
  end.
End persistence.

(* ===================================================================== *)
(** * Text helpers *)
(* ===================================================================== *)

Definition newline : string := String (ascii_of_nat 10) "".

(** [f"{i:2d}"]: decimal, right-aligned in a field of width 2. *)
Definition fmt_2d (i : Z) : string :=
  let s := pretty i in
  if (String.length s <? 2)%nat then " " +:+ s else s.

Fixpoint mapM {A B} (f : A -> result B) (l : list A) : result (list B) :=
  match l with
  | [] => Ok []
  | x :: l' =>
      match f x with
      | Raise e => Raise e
      | Ok y => match mapM f l' with
                | Raise e => Raise e
                | Ok ys => Ok (y :: ys)
                end
      end
  end.

(* ===================================================================== *)
(** * core.controller *)
(* ===================================================================== *)

Module GameController.
Section WithEngine.
Context {E : Type} `{!Engine.Ops E}.

Definition create_engine (game_type : GameType) (board_size : Z) : result E :=
  match game_type with
  | GOMOKU => Engine.GomokuEngine board_size
  | GO => Engine.GoEngine board_size
  end.

Record t : Type := mk {
  engine : option E;
  game_type : option GameType;
  board_size : Z
}.

Definition set_engine (e : option E) (c : t) : t :=
  mk e (game_type c) (board_size c).
Definition set_game_type (g : option GameType) (c : t) : t :=
  mk (engine c) g (board_size c).
Definition set_board_size (n : Z) (c : t) : t :=
  mk (engine c) (game_type c) n.

Definition __init__ : t := mk None None 0.

Definition start_game (game_type : GameType) (board_size : Z) : M t unit :=
  e ← lift (create_engine game_type board_size);
  modify (set_engine (Some e));;
  modify (set_game_type (Some game_type));;
  modify (set_board_size board_size).

Definition no_game_msg : string :=
  "当前没有运行中的对局，请先执行开始命令。".

Definition _require_engine : M t E :=
  c ← get;
  match engine c with
  | None => raise (ValueError no_game_msg)
  | Some e => mret e
  end.

(** A method call on the object held in [self.engine]; the engine is
    mutated in place, so its new state is what the field holds afterwards.
    On [None] Python fails to find the attribute. *)
Definition on_engine {A} (m : M E A) : M t A := fun c =>
  match engine c with
  | Some e => let '(r, e') := m e in (r, set_engine (Some e') c)
  | None => (Raise (AttributeError "'NoneType' object has no attribute"), c)
  end.

Definition place_stone (row col : Z) : M t unit :=
  _ ← _require_engine;
  let position := mkPosition row col in
  on_engine (Engine.play_move position).

Definition pass_only_go_msg : string := "只有围棋对局才能执行虚手操作".

Definition pass_turn : M t unit :=
  _ ← _require_engine;
  c ← get;
  if decide (game_type c ≠ Some GO) then raise (ValueError pass_only_go_msg)
  else on_engine Engine.pass_turn.

Definition undo : M t unit :=
  _ ← _require_engine;
  on_engine Engine.undo.

(** [color or engine.current_player]: a member of [PlayerColor] is truthy,
    so only the default [None] falls through to the current player. *)
Definition resign (color : option PlayerColor) : M t unit :=
  engine ← _require_engine;
  let active_color := default (Engine.current_player engine) color in
  on_engine (Engine.resign active_color).

Definition restart : M t unit :=
  _ ← _require_engine;
  on_engine Engine.restart.

Definition save (file_path : string) (fs : persistence.files)
    : M t persistence.files :=
  _ ← _require_engine;
  c ← get;
  state ← on_engine Engine.serialize;
  let payload : gmap string value :=
    {[ "game_type" := match game_type c with
                      | None => VNone
                      | Some g => VStr (GameType_value g)
                      end;
       "state" := state ]} in
  lift (persistence.save_game file_path payload fs).

(** [state.get(key)]: defined on dictionaries only. *)
Definition value_get (key : string) (state : value) : result value :=
  match state with
  | VDict m => Ok (default VNone (m !! key))
  | _ => Raise (AttributeError "object has no attribute 'get'")
  end.

(** The engine constructors of the model take the board size as an integer.
    [load] itself tests the board size against [None] only and hands
    whatever else it finds to the constructor; what the engines make of a
    size that is no integer is not in the sources, and the model stops there
    with a type error.  The statements about [load] are made on saves whose
    board size is an integer, or that are refused before this point. *)
Definition expect_int (v : value) : result Z :=
  match v with
  | VInt n => Ok n
  | _ => Raise (TypeError "board size is not an integer")
  end.

Definition bad_format_msg : string := "存档文件格式不正确".
Definition unknown_type_msg : string := "存档中包含未知的游戏类型: ".
Definition no_board_size_msg : string := "存档文件缺少棋盘大小信息".

Definition load (file_path : string) (fs : persistence.files) : M t unit :=
  payload ← lift (persistence.load_game file_path fs);
  match payload !! "game_type", payload !! "state" with
  | Some game_type_value, Some state =>
      game_type ← try_except (lift (GameType_of_value game_type_value))
        (fun error =>
           match error with
           | ValueError text => Some (raise (IOError (unknown_type_msg +:+ text)))
           | _ => None
           end);
      board_size ← lift (value_get "board_size" state);
      match board_size with
      | VNone => raise (IOError no_board_size_msg)
      | _ =>
          board_size ← lift (expect_int board_size);
          e ← lift (create_engine game_type board_size);
          modify (set_engine (Some e));;
          on_engine (Engine.deserialize state);;
          modify (set_game_type (Some game_type));;
          modify (set_board_size board_size)
      end
  | _, _ => raise (IOError bad_format_msg)
  end.
(** ** Read-only views *)

Definition cell_token (cell : option PlayerColor) : string :=
  match cell with
  | None => "."
  | Some BLACK => "X"
  | Some WHITE => "O"
  end.

Definition board_row (b : Board.t) (row : Z) : result string :=
  tokens ← mapM (fun col => cell ← Board.get b (mkPosition row col);
                            mret (cell_token cell))
                (seqZ 0 (Board.size b));
  mret (fmt_2d (row + 1) +:+ " | " +:+ String.concat "  " tokens).

Definition get_board_display : M t string :=
  engine ← _require_engine;
  let b := Engine.board engine in
  let header := "    " +:+ String.concat " " (fmt_2d <$> seqZ 1 (Board.size b)) in
  rows ← lift (mapM (board_row b) (seqZ 0 (Board.size b)));
  mret (String.concat newline (header :: rows)).

Record Resources : Type := mkResources {
  res_stones_on_board : Z;
  res_stones_remaining : Z;
  res_undo_remaining : Z
}.

Definition get_resource_snapshot : M t (PlayerColor -> Resources) :=
  engine ← _require_engine;
  mret (fun color =>
          mkResources (Engine.stones_on_board color engine)
                      (Engine.stones_remaining color engine)
                      (Engine.undo_remaining color engine)).

Definition _game_type_label (c : t) : string :=
  match game_type c with
  | Some GOMOKU => "五子棋"
  | Some GO => "围棋"
  | None => "未知游戏"
  end.

Definition _color_label (color : PlayerColor) : string :=
  if decide (color = BLACK) then "黑方" else "白方".

Definition _format_resource_line (color : PlayerColor)
    (snapshot : PlayerColor -> Resources) : string :=
  let data := snapshot color in
  _color_label color +:+ ": 在盘" +:+ pretty (res_stones_on_board data) +:+ "枚，"
    +:+ "库存" +:+ pretty (res_stones_remaining data) +:+ "枚，"
    +:+ "悔棋余量" +:+ pretty (res_undo_remaining data) +:+ "次".

Definition reason_text (r : Reason) : string :=
  match r with
  | five_in_a_row => "five-in-a-row"
  | resignation => "resignation"
  | two_consecutive_passes_scored => "two-consecutive-passes-scored"
  | board_full_draw => "board-full-draw"
  end.

Definition get_status : M t string :=
  engine ← _require_engine;
  snapshot ← get_resource_snapshot;
  c ← get;
  let status_parts :=
    [ "游戏: " +:+ _game_type_label c +:+ " " +:+ pretty (board_size c)
        +:+ "x" +:+ pretty (board_size c);
      "当前行棋方: " +:+ _color_label (Engine.current_player engine);
      _format_resource_line BLACK snapshot;
      _format_resource_line WHITE snapshot ] in
  if Engine.is_finished engine then
    result ← lift (Engine.get_result engine);
    mret (String.concat " | "
            (status_parts ++
             [ match winner result with
               | None => "结果: 平局"
               | Some w => "胜者: " +:+ _color_label w
               end;
               "结束原因: " +:+ reason_text (reason result) ]))
  else mret (String.concat " | " status_parts).
End WithEngine.
Arguments t E : clear implicits.
End GameController.

(* ===================================================================== *)
(** * The rule engines of the specification *)
(* ===================================================================== *)

#[global] Instance Position_eq_dec : EqDecision Position.
Proof. solve_decision. Defined.

(** Modelled from the spec: [games.gomoku.GomokuEngine] and
    [games.go.GoEngine] are not among the sources.  This module follows
    sections 3 and 4.2 to 4.5 of the specification: one engine state shared
    by both variants, the variant chosen by a tag, undo by inverse delta. *)
Module SpecEngine.

(** ** Data model (section 3) *)

Inductive Status : Type :=
| InProgress
| Finished (r : GameResult).

(** One integer per colour. *)
Record Counter : Type := mkCounter { of_black : Z; of_white : Z }.

Definition count (k : Counter) (c : PlayerColor) : Z :=
  match c with BLACK => of_black k | WHITE => of_white k end.

Definition bump (k : Counter) (c : PlayerColor) (d : Z) : Counter :=
  match c with
  | BLACK => mkCounter (of_black k + d) (of_white k)
  | WHITE => mkCounter (of_black k) (of_white k + d)
  end.

Definition both (n : Z) : Counter := mkCounter n n.

(** A recorded action with the delta needed to reverse it. *)
Inductive Action : Type :=
| Placed (pos : Position) (captures : list (Position * PlayerColor))
         (prev_ko : option Position) (prev_passes : Z)
         (prev_player : PlayerColor)
| Passed (prev_ko : option Position) (prev_passes : Z)
         (prev_player : PlayerColor)
| Resigned (color : PlayerColor).

Record t : Type := mk {
  variant : GameType;
  board : Board.t;
  current_player : PlayerColor;
  stones_remaining : Counter;
  undos_remaining : Counter;
  captured : Counter;
  history : list Action;
  status : Status;
  ko : option Position;
  passes : Z;
  stone_allotment : Z;
  undo_allotment : Z
}.

(** The starting allotments are a per-variant configuration (design notes,
    section 9): stones per colour for a board of a given size, and undos
    per colour. *)
Record Config : Type := mkConfig {
  stones_for : GameType -> Z -> Z;
  undos_for : GameType -> Z
}.

Definition fresh (g : GameType) (n stones undos : Z) : t :=
  mk g (Board.empty n) BLACK (both stones) (both undos) (both 0)
     [] InProgress None 0 stones undos.

Definition new (cfg : Config) (g : GameType) (n : Z) : t :=
  fresh g n (stones_for cfg g n) (undos_for cfg g).

Definition cell (b : Board.t) (p : Position) : option PlayerColor :=
  Board.cells b !! (row p, col p).

(** ** Gomoku: five in a row (section 4.3) *)

Definition step (p : Position) (d : Z * Z) : Position :=
  mkPosition (row p + fst d) (col p + snd d).

(** Stones of colour [c] met walking from [p] (excluded) in direction [d]
    until another cell or the border is met. *)
Fixpoint run (fuel : nat) (b : Board.t) (c : PlayerColor) (p : Position)
    (d : Z * Z) : Z :=
  match fuel with
  | O => 0
  | S fuel' =>
      let q := step p d in
      if Board.in_bounds b q && bool_decide (cell b q = Some c)
      then 1 + run fuel' b c q d
      else 0
  end.

Definition axes : list (Z * Z) := [(0, 1); (1, 0); (1, 1); (1, -1)].

Definition line_through (b : Board.t) (c : PlayerColor) (p : Position)
    (d : Z * Z) : Z :=
  let n := Z.to_nat (Board.size b) in
  1 + run n b c p d + run n b c p (- fst d, - snd d).

Definition five (b : Board.t) (c : PlayerColor) (p : Position) : bool :=
  existsb (fun d => 5 <=? line_through b c p d) axes.

(** ** Go: groups, liberties, captures (section 4.4) *)

Definition neighbours (p : Position) : list Position :=
  [step p (-1, 0); step p (1, 0); step p (0, -1); step p (0, 1)].

(** Flood fill over the cells whose content is [k], connected orthogonally,
    from the cells of [todo]; [seen] accumulates the region. *)
Fixpoint flood (fuel : nat) (b : Board.t) (k : option PlayerColor)
    (todo seen : list Position) : list Position :=
  match fuel with
  | O => seen
  | S fuel' =>
      match todo with
      | [] => seen
      | p :: rest =>
          if Board.in_bounds b p && bool_decide (cell b p = k)
             && negb (bool_decide (p ∈ seen))
          then flood fuel' b k (neighbours p ++ rest) (p :: seen)
          else flood fuel' b k rest seen
      end
  end.

(** Every cell is taken off [todo] once for the start and at most once per
    side of a cell of the region. *)
Definition flood_fuel (b : Board.t) : nat :=
  Z.to_nat (4 * Board.size b * Board.size b + 2).

Definition region (b : Board.t) (k : option PlayerColor) (p : Position)
    : list Position :=
  flood (flood_fuel b) b k [p] [].

Definition group (b : Board.t) (c : PlayerColor) (p : Position)
    : list Position :=
  region b (Some c) p.

(** Cells next to a region, in bounds, whose content is [k], each once. *)
Definition border (b : Board.t) (k : option PlayerColor)
    (g : list Position) : list Position :=
  remove_dups
    (filter (fun q => Board.in_bounds b q = true ∧ cell b q = k)
            (g ≫= neighbours)).

Definition liberties (b : Board.t) (g : list Position) : list Position :=
  border b None g.

(** Cells of the groups of the opponent of [me] that touch [p] and have no
    liberty on [b], each once. *)
Definition dead_groups (b : Board.t) (me : PlayerColor) (p : Position)
    : list Position :=
  remove_dups
    (q ← neighbours p;
     if Board.in_bounds b q && bool_decide (cell b q = Some (opposite me))
     then let g := group b (opposite me) q in
          if bool_decide (liberties b g = []) then g else []
     else []).

Definition remove_all (b : Board.t) (ps : list Position) : Board.t :=
  foldr (fun q acc => Board.set acc q None) b ps.

Definition restore_all (b : Board.t) (caps : list (Position * PlayerColor))
    : Board.t :=
  foldr (fun qc acc => Board.set acc (fst qc) (Some (snd qc))) b caps.

(** The ko marker after a placement at [p] that captured [dead]: the
    captured point, when exactly one stone was taken and the placed stone
    stands alone with that point as its only liberty. *)
Definition ko_after (b : Board.t) (me : PlayerColor) (p : Position)
    (dead : list Position) : option Position :=
  match dead with
  | [x] =>
      if bool_decide (group b me p = [p])
         && bool_decide (liberties b [p] = [x])
      then Some x else None
  | _ => None
  end.

(** ** Go: area scoring *)

Definition stones (b : Board.t) (c : PlayerColor) : Z :=
  Z.of_nat (length (filter (fun p => cell b p = Some c) (Board.positions b))).

(** The colour owning the empty region around [p]: the only colour on its
    border. *)
Definition owner (b : Board.t) (p : Position) : option PlayerColor :=
  let r := region b None p in
  match border b (Some BLACK) r, border b (Some WHITE) r with
  | _ :: _, [] => Some BLACK
  | [], _ :: _ => Some WHITE
  | _, _ => None
  end.

Definition territory (b : Board.t) (c : PlayerColor) : Z :=
  Z.of_nat (length (filter (fun p => cell b p = None ∧ owner b p = Some c)
                           (Board.positions b))).

Definition area (b : Board.t) (c : PlayerColor) : Z :=
  stones b c + territory b c.

Definition score (b : Board.t) : GameResult :=
  mkGameResult
    (if area b WHITE <? area b BLACK then Some BLACK
     else if area b BLACK <? area b WHITE then Some WHITE
     else None)
    two_consecutive_passes_scored.

(** ** Operations (section 4.2) *)

Definition is_finished (s : t) : bool :=
  match status s with InProgress => false | Finished _ => true end.

Definition get_result (s : t) : result GameResult :=
  match status s with
  | InProgress => Raise (EngineError GameNotFinished)
  | Finished r => Ok r
  end.

Definition stones_on_board (c : PlayerColor) (s : t) : Z := stones (board s) c.

(** Modelled from the spec: the effect of a successful [play_move]
    (section 4.2).  [b] is the board after the stone and the removals,
    [dead] the removed cells of the opponent, [st] and [k] the resulting
    status and ko marker. *)
Definition commit (s : t) (p : Position) (b : Board.t)
    (dead : list Position) (st : Status) (k : option Position) : t :=
  let me := current_player s in
  mk (variant s) b (opposite me)
     (bump (stones_remaining s) me (-1))
     (undos_remaining s)
     (bump (captured s) (opposite me) (Z.of_nat (length dead)))
     (Placed p ((fun q => (q, opposite me)) <$> dead) (ko s) (passes s) me
        :: history s)
     st k 0 (stone_allotment s) (undo_allotment s).

Definition gomoku_status (b : Board.t) (me : PlayerColor) (p : Position)
    : Status :=
  if five b me p then Finished (mkGameResult (Some me) five_in_a_row)
  else if Board.is_full b then Finished (mkGameResult None board_full_draw)
  else InProgress.

(** Modelled from the spec: [play_move] (sections 4.2 to 4.4).  The checks
    come in the order: game over, off the board, occupied cell, no stone
    left, and for Go, ko and suicide. *)
Definition play (p : Position) (s : t) : result t :=
  let me := current_player s in
  if is_finished s then Raise (EngineError GameFinished)
  else if negb (Board.in_bounds (board s) p) then Raise (EngineError OutOfBounds)
  else if bool_decide (is_Some (cell (board s) p))
  then Raise (EngineError OccupiedCell)
  else if count (stones_remaining s) me <=? 0
  then Raise (EngineError (IllegalMove "no stones left"))
  else
    let b1 := Board.set (board s) p (Some me) in
    match variant s with
    | GOMOKU => Ok (commit s p b1 [] (gomoku_status b1 me p) None)
    | GO =>
        if bool_decide (ko s = Some p)
        then Raise (EngineError (IllegalMove "ko"))
        else
          let dead := dead_groups b1 me p in
          let b2 := remove_all b1 dead in
          if bool_decide (liberties b2 (group b2 me p) = [])
          then Raise (EngineError (IllegalMove "suicide"))
          else Ok (commit s p b2 dead InProgress (ko_after b2 me p dead))
    end.

(** Modelled from the spec: [pass_turn] (sections 4.2 and 4.4). *)
Definition pass (s : t) : result t :=
  let me := current_player s in
  match variant s with
  | GOMOKU => Raise (EngineError UnsupportedOperation)
  | GO =>
      if is_finished s then Raise (EngineError GameFinished)
      else
        let n := passes s + 1 in
        Ok (mk (variant s) (board s) (opposite me)
               (stones_remaining s) (undos_remaining s) (captured s)
               (Passed (ko s) (passes s) me :: history s)
               (if 2 <=? n then Finished (score (board s)) else InProgress)
               None n (stone_allotment s) (undo_allotment s))
  end.

(** Modelled from the spec: [undo] (section 4.2), by inverse delta.  The
    player who regains the turn is the one recorded in the entry; a
    resignation is final and is never reversed. *)
Definition undo (s : t) : result t :=
  if is_finished s then Raise (EngineError GameFinished)
  else
    match history s with
    | [] => Raise (EngineError NoMovesToUndo)
    | Resigned _ :: _ => Raise (EngineError GameFinished)
    | Placed p caps prev_ko prev_passes who :: rest =>
        if count (undos_remaining s) who <=? 0
        then Raise (EngineError UndoExhausted)
        else
          Ok (mk (variant s)
                 (restore_all (Board.set (board s) p None) caps)
                 who
                 (bump (stones_remaining s) who 1)
                 (bump (undos_remaining s) who (-1))
                 (bump (captured s) (opposite who) (- Z.of_nat (length caps)))
                 rest InProgress prev_ko prev_passes
                 (stone_allotment s) (undo_allotment s))
    | Passed prev_ko prev_passes who :: rest =>
        if count (undos_remaining s) who <=? 0
        then Raise (EngineError UndoExhausted)
        else
          Ok (mk (variant s) (board s) who
                 (stones_remaining s)
                 (bump (undos_remaining s) who (-1))
                 (captured s)
                 rest InProgress prev_ko prev_passes
                 (stone_allotment s) (undo_allotment s))
    end.

(** Modelled from the spec: [resign] (section 4.2). *)
Definition resign (color : PlayerColor) (s : t) : result t :=
  if is_finished s then Raise (EngineError GameFinished)
  else
    Ok (mk (variant s) (board s) (current_player s)
           (stones_remaining s) (undos_remaining s) (captured s)
           (Resigned color :: history s)
           (Finished (mkGameResult (Some (opposite color)) resignation))
           (ko s) (passes s) (stone_allotment s) (undo_allotment s)).

(** Modelled from the spec: [restart] (section 4.2). *)
Definition restart (s : t) : t :=
  fresh (variant s) (Board.size (board s))
        (stone_allotment s) (undo_allotment s).

(** ** Serialization codec (section 4.5) *)

Definition color_tag (c : PlayerColor) : string :=
  match c with BLACK => "black" | WHITE => "white" end.

Definition opt_color_value (c : option PlayerColor) : value :=
  match c with None => VNone | Some k => VStr (color_tag k) end.

Definition counter_value (k : Counter) : value :=
  VDict {[ "black" := VInt (of_black k); "white" := VInt (of_white k) ]}.

Definition reason_tag (r : Reason) : string :=
  match r with
  | five_in_a_row => "five-in-a-row"
  | resignation => "resignation"
  | two_consecutive_passes_scored => "two-consecutive-passes-scored"
  | board_full_draw => "board-full-draw"
  end.

Definition status_value (st : Status) : value :=
  match st with
  | InProgress => VNone
  | Finished r =>
      VDict {[ "winner" := opt_color_value (winner r);
               "reason" := VStr (reason_tag (reason r)) ]}
  end.

Definition ko_value (k : option Position) : value :=
  match k with
  | None => VNone
  | Some p => VList [VInt (row p); VInt (col p)]
  end.

(** Modelled from the spec: [serialize] (section 4.5).  The record holds
    the variant tag, the board size, the board contents
    row by row, the counters, the player to move, the result when the game
    is over, and Go's ko marker and pass count.  The history is not
    written: a loaded game starts with nothing to undo. *)
Definition serialize (s : t) : value :=
  VDict
    {[ "game_type" := VStr (GameType_value (variant s));
       "board_size" := VInt (Board.size (board s));
       "board" := VList ((fun p => opt_color_value (cell (board s) p))
                           <$> Board.positions (board s));
       "stones_remaining" := counter_value (stones_remaining s);
       "undo_remaining" := counter_value (undos_remaining s);
       "captured" := counter_value (captured s);
       "current_player" := VStr (color_tag (current_player s));
       "result" := status_value (status s);
       "ko" := ko_value (ko s);
       "passes" := VInt (passes s) ]}.

Definition corrupt {A} : result A := Raise (EngineError CorruptSave).

Definition field (m : gmap string value) (k : string) : result value :=
  match m !! k with Some v => Ok v | None => corrupt end.

Definition as_dict (v : value) : result (gmap string value) :=
  match v with VDict m => Ok m | _ => corrupt end.
Definition as_int (v : value) : result Z :=
  match v with VInt n => Ok n | _ => corrupt end.
Definition as_list (v : value) : result (list value) :=
  match v with VList l => Ok l | _ => corrupt end.

Definition as_color (v : value) : result PlayerColor :=
  match v with
  | VStr tag =>
      if decide (tag = "black") then Ok BLACK
      else if decide (tag = "white") then Ok WHITE
      else corrupt
  | _ => corrupt
  end.

Definition as_opt_color (v : value) : result (option PlayerColor) :=
  match v with VNone => Ok None | _ => c ← as_color v; mret (Some c) end.

Definition as_counter (v : value) : result Counter :=
  m ← as_dict v;
  b ← field m "black" ≫= as_int;
  w ← field m "white" ≫= as_int;
  mret (mkCounter b w).

Definition as_reason (v : value) : result Reason :=
  match v with
  | VStr tag =>
      if decide (tag = "five-in-a-row") then Ok five_in_a_row
      else if decide (tag = "resignation") then Ok resignation
      else if decide (tag = "two-consecutive-passes-scored")
      then Ok two_consecutive_passes_scored
      else if decide (tag = "board-full-draw") then Ok board_full_draw
      else corrupt
  | _ => corrupt
  end.

Definition as_status (v : value) : result Status :=
  match v with
  | VNone => Ok InProgress
  | _ =>
      m ← as_dict v;
      w ← field m "winner" ≫= as_opt_color;
      r ← field m "reason" ≫= as_reason;
      mret (Finished (mkGameResult w r))
  end.

Definition as_ko (v : value) : result (option Position) :=
  match v with
  | VNone => Ok None
  | VList [VInt r; VInt c] => Ok (Some (mkPosition r c))
  | _ => corrupt
  end.

Definition as_variant (v : value) : result GameType :=
  match v with
  | VStr tag =>
      if decide (tag = "gomoku") then Ok GOMOKU
      else if decide (tag = "go") then Ok GO
      else Raise (EngineError UnknownGameType)
  | _ => corrupt
  end.

Definition cells_of (n : Z) (flat : list (option PlayerColor))
    : gmap (Z * Z) PlayerColor :=
  list_to_map
    (omap (fun pc => (fun k => ((row (fst pc), col (fst pc)), k)) <$> snd pc)
          (zip (Board.positions (Board.empty n)) flat)).

(** Modelled from the spec: [deserialize] (section 4.5).  It reads a
    record back into the engine.  A missing or ill-typed field, a
    board of the wrong length, or a tag of the other variant is a corrupt
    save; an unknown tag is an unknown game type. *)
Definition deserialize (blob : value) (s : t) : result t :=
  m ← as_dict blob;
  g ← field m "game_type" ≫= as_variant;
  n ← field m "board_size" ≫= as_int;
  items ← field m "board" ≫= as_list;
  flat ← mapM as_opt_color items;
  stones_left ← field m "stones_remaining" ≫= as_counter;
  undos_left ← field m "undo_remaining" ≫= as_counter;
  taken ← field m "captured" ≫= as_counter;
  player ← field m "current_player" ≫= as_color;
  st ← field m "result" ≫= as_status;
  k ← field m "ko" ≫= as_ko;
  np ← field m "passes" ≫= as_int;
  if bool_decide (g = variant s) && (Z.of_nat (length flat) =? n * n)
  then Ok (mk g (Board.mk n (cells_of n flat)) player stones_left undos_left
              taken [] st k np (stone_allotment s) (undo_allotment s))
  else corrupt.

(** ** The engine as seen by the controller *)

(** Modelled from the spec: an engine operation either commits its whole
    delta or leaves the state untouched (section 7). *)
Definition atomic (f : t -> result t) : M t unit := fun s =>
  match f s with
  | Ok s' => (Ok tt, s')
  | Raise e => (Raise e, s)
  end.

(** Modelled from the spec: the two engine classes behind the contract
    used by the controller.  The constructors are given no failure by the
    specification. *)
Definition ops (cfg : Config) : Engine.Ops t := {|
  Engine.GomokuEngine n := Ok (new cfg GOMOKU n);
  Engine.GoEngine n := Ok (new cfg GO n);
  Engine.play_move p := atomic (play p);
  Engine.pass_turn := atomic pass;
  Engine.undo := atomic undo;
  Engine.resign c := atomic (resign c);
  Engine.restart := modify restart;
  Engine.serialize := gets serialize;
  Engine.deserialize blob := atomic (deserialize blob);
  Engine.current_player := current_player;
  Engine.is_finished := is_finished;
  Engine.get_result := get_result;
  Engine.stones_on_board := stones_on_board;
  Engine.stones_remaining c s := count (stones_remaining s) c;
  Engine.undo_remaining c s := count (undos_remaining s) c;
  Engine.board := board
|}.

(** One choice of allotments: as many stones per colour as the board has
    cells, and three undos. *)
Definition default_config : Config :=
  mkConfig (fun _ n => n * n) (fun _ => 3).
End SpecEngine.

(* ===================================================================== *)
(** * Python's [int] on strings *)
(* ===================================================================== *)

(** The ASCII white space [int] strips: tab to carriage return, the four
    separators 28 to 31, and the space. *)
Definition is_space (a : ascii) : bool :=
  let n := nat_of_ascii a in
  ((9 <=? n) && (n <=? 13) || (28 <=? n) && (n <=? 32))%nat.

Fixpoint lstrip (s : string) : string :=
  match s with
  | String a s' => if is_space a then lstrip s' else s
  | EmptyString => EmptyString
  end.

Fixpoint rstrip (s : string) : string :=
  match s with
  | String a s' =>
      match rstrip s' with
      | EmptyString => if is_space a then EmptyString else String a EmptyString
      | t => String a t
      end
  | EmptyString => EmptyString
  end.

Definition strip (s : string) : string := rstrip (lstrip s).

Definition digit_of (a : ascii) : option Z :=
  let n := Z.of_nat (nat_of_ascii a) in
  if (48 <=? n) && (n <=? 57) then Some (n - 48) else None.

(** Decimal digits, a single underscore allowed between two digits;
    [after_digit] tells whether the previous character was a digit. *)
Fixpoint digits (after_digit : bool) (acc : Z) (s : string) : option Z :=
  match s with
  | EmptyString => if after_digit then Some acc else None
  | String a s' =>
      if Ascii.eqb a "_"%char
      then (if after_digit then digits false acc s' else None)
      else match digit_of a with
           | Some d => digits true (10 * acc + d) s'
           | None => None
           end
  end.

(** The number of digit characters of a text. *)
Fixpoint digit_count (s : string) : nat :=
  match s with
  | EmptyString => 0%nat
  | String a s' =>
      match digit_of a with
      | Some _ => S (digit_count s')
      | None => digit_count s'
      end
  end.

(** [sys.int_max_str_digits] as Python sets it by default: [int] raises
    [ValueError] on a text with more digits. *)
Definition max_str_digits : Z := 4300.

(** [int(s)] for a string in base ten: surrounding white space, an optional
    sign, digits, no more of them than [max_str_digits].  [None] stands for
    the [ValueError] Python raises.  The text is read as ASCII: Python's
    [int] also reads the other decimal digits and white space of Unicode,
    which are outside this model; what is stated about a text that [int]
    refuses is stated for ASCII text. *)
Definition py_int (s : string) : option Z :=
  let t := strip s in
  if max_str_digits <? Z.of_nat (digit_count t) then None
  else
    match t with
    | String "+" r => digits false 0 r
    | String "-" r => Z.opp <$> digits false 0 r
    | r => digits false 0 r
    end.

(* ===================================================================== *)
(** * ui.cli *)
(* ===================================================================== *)

Module ConsoleClient.
Section WithEngine.
Context {E : Type} `{!Engine.Ops E}.

(** The client, together with what it has printed and the files it can
    reach. *)
Record t : Type := mk {
  controller : GameController.t E;
  running : bool;
  show_prompts : bool;
  stdout : list string;
  files : persistence.files
}.

Definition __init__ (fs : persistence.files) : t :=
  mk GameController.__init__ true true [] fs.

Definition set_controller (c : GameController.t E) (s : t) : t :=
  mk c (running s) (show_prompts s) (stdout s) (files s).
Definition set_files (fs : persistence.files) (s : t) : t :=
  mk (controller s) (running s) (show_prompts s) (stdout s) fs.

Definition print (line : string) : M t unit :=
  modify (fun s => mk (controller s) (running s) (show_prompts s)
                      (stdout s ++ [line]) (files s)).

Definition on_controller {A} (m : M (GameController.t E) A) : M t A :=
  zoom controller set_controller m.

Definition _cmd_board (args : list string) : M t unit :=
  text ← on_controller GameController.get_board_display;
  print text.

Definition _cmd_start (args : list string) : M t unit :=
  match args with
  | [kind; size] =>
      game_type ← lift (game_type_from_string kind);
      board_size ← match py_int size with
                   | Some n => mret n
                   | None => raise (ValueError "Board size must be an integer")
                   end;
      if (board_size <? 8) || (19 <? board_size)
      then raise (ValueError "Board size must be between 8 and 19")
      else
        on_controller (GameController.start_game game_type board_size);;
        print ("Started " +:+ GameType_value game_type +:+ " on a "
                 +:+ pretty board_size +:+ "x" +:+ pretty board_size
                 +:+ " board.");;
        _cmd_board []
  | _ => raise (ValueError "Usage: start <gomoku|go> <size>")
  end.

Definition _parse_coordinate (value : string) : M t Z :=
  match py_int value with
  | None => raise (ValueError "Coordinates must be integers")
  | Some coordinate =>
      if coordinate <=? 0
      then raise (ValueError "Coordinates must be positive")
      else mret coordinate
  end.

Definition _cmd_move (args : list string) : M t unit :=
  match args with
  | [r; c] =>
      row ← _parse_coordinate r;
      col ← _parse_coordinate c;
      on_controller (GameController.place_stone (row - 1) (col - 1));;
      _cmd_board []
  | _ => raise (ValueError "Usage: move <row> <col>")
  end.

Definition _cmd_pass (args : list string) : M t unit :=
  on_controller GameController.pass_turn;;
  print "Turn passed.".

Definition _cmd_undo (args : list string) : M t unit :=
  on_controller GameController.undo;;
  print "Reverted the last move.".

Definition _cmd_resign (args : list string) : M t unit :=
  on_controller (GameController.resign None);;
  s ← get;
  result ← match GameController.engine (controller s) with
           | Some e => lift (Engine.get_result e)
           | None => raise (AttributeError "'NoneType' object has no attribute")
           end;
  print ("Game ended: " +:+ GameController.reason_text (reason result)).

Definition _cmd_restart (args : list string) : M t unit :=
  on_controller GameController.restart;;
  print "Game restarted.";;
  _cmd_board [].

Definition _cmd_save (args : list string) : M t unit :=
  match args with
  | [path] =>
      s ← get;
      fs ← on_controller (GameController.save path (files s));
      modify (set_files fs);;
      print ("Saved game to " +:+ path)
  | _ => raise (ValueError "Usage: save <file>")
  end.

Definition _cmd_load (args : list string) : M t unit :=
  match args with
  | [path] =>
      s ← get;
      on_controller (GameController.load path (files s));;
      print ("Loaded game from " +:+ path);;
      _cmd_board []
  | _ => raise (ValueError "Usage: load <file>")
  end.

Definition _cmd_status (args : list string) : M t unit :=
  text ← on_controller GameController.get_status;
  print text.

Definition _cmd_hint (args : list string) : M t unit :=
  modify (fun s => mk (controller s) (running s) (negb (show_prompts s))
                      (stdout s) (files s));;
  s ← get;
  print ("Prompts " +:+ (if show_prompts s then "enabled" else "hidden") +:+ ".").
End WithEngine.
Arguments t E : clear implicits.
End ConsoleClient.

(* ===================================================================== *)
(** * ui.gui *)
(* ===================================================================== *)

(** The part of the GUI that decides what reaches the controller.  Drawing
    is left out.  The canvas geometry is computed in floating point; it is
    kept abstract: [layout] stands for the computation of [_board_area] in
    [_refresh_board], [inside] for the test that a click falls in that area,
    and [locate] for the computation of [(row, col)] from a click. *)
Module GuiApp.
Section WithEngine.
Context {E : Type} `{!Engine.Ops E}.
Context {Area : Type}.
Variable layout : Z -> Z -> Z -> result Area.
Variable inside : Area -> Z * Z -> bool.
Variable locate : Area -> Z * Z -> result (Z * Z).

Inductive Dialog : Type :=
| showinfo (title message : string)
| showerror (error : exn).

Record t : Type := mk {
  controller : GameController.t E;
  _board_area : option Area;
  _result_notified : bool;
  game_type_var : string;
  board_size_var : string;
  _canvas_width : Z;
  _canvas_height : Z;
  winfo : Z * Z;
  dialogs : list Dialog
}.

Definition set_controller (c : GameController.t E) (g : t) : t :=
  mk c (_board_area g) (_result_notified g) (game_type_var g)
     (board_size_var g) (_canvas_width g) (_canvas_height g) (winfo g)
     (dialogs g).
Definition set_board_area (a : option Area) (g : t) : t :=
  mk (controller g) a (_result_notified g) (game_type_var g)
     (board_size_var g) (_canvas_width g) (_canvas_height g) (winfo g)
     (dialogs g).
Definition set_result_notified (b : bool) (g : t) : t :=
  mk (controller g) (_board_area g) b (game_type_var g)
     (board_size_var g) (_canvas_width g) (_canvas_height g) (winfo g)
     (dialogs g).
Definition show (d : Dialog) : M t unit :=
  modify (fun g =>
    mk (controller g) (_board_area g) (_result_notified g) (game_type_var g)
       (board_size_var g) (_canvas_width g) (_canvas_height g) (winfo g)
       (dialogs g ++ [d])).

Definition on_controller {A} (m : M (GameController.t E) A) : M t A :=
  zoom controller set_controller m.

Definition game_type_options (selected : string) : string :=
  if decide (selected = "五子棋") then "gomoku"
  else if decide (selected = "围棋") then "go"
  else selected.

Definition _read_board_size : M t Z :=
  g ← get;
  match py_int (board_size_var g) with
  | None => raise (ValueError "棋盘大小必须是整数")
  | Some size =>
      if (size <? 8) || (19 <? size)
      then raise (ValueError "棋盘大小需介于 8 到 19 之间")
      else mret size
  end.

Definition _handle_error (error : exn) : M t unit := show (showerror error).

(** [try: m except Exception as error: self._handle_error(error)] *)
Definition guarded (m : M t unit) : M t unit :=
  try_except m (fun error => Some (_handle_error error)).

Definition _notify_game_end : M t unit :=
  g ← get;
  match GameController.engine (controller g) with
  | None => mret tt
  | Some engine =>
      if negb (Engine.is_finished engine) || _result_notified g then mret tt
      else
        result ← lift (Engine.get_result engine);
        show (showinfo "对局结束"
                (match winner result with
                 | None => "结果: 平局"
                 | Some w => "胜者: " +:+ GameController._color_label w
                 end +:+ newline +:+ GameController.reason_text (reason result)));;
        modify (set_result_notified true)
  end.

(** The state changes of [_refresh_board]; the loop over the board reads
    every cell and so fails where the board does. *)
Definition _refresh_board : M t unit :=
  g ← get;
  let width := if _canvas_width g =? 0 then fst (winfo g) else _canvas_width g in
  let height := if _canvas_height g =? 0 then snd (winfo g) else _canvas_height g in
  if (width <=? 1) || (height <=? 1) then mret tt
  else
    match GameController.engine (controller g) with
    | None =>
        modify (set_board_area None);;
        modify (set_result_notified false)
    | Some engine =>
        let size := GameController.board_size (controller g) in
        area ← lift (layout width height size);
        modify (set_board_area (Some area));;
        lift (mapM (fun row =>
                      mapM (fun col => Board.get (Engine.board engine)
                                                 (mkPosition row col))
                           (seqZ 0 size))
                   (seqZ 0 size));;
        on_controller GameController.get_resource_snapshot;;
        _notify_game_end
    end.

Definition _start_game : M t unit :=
  guarded (
    g ← get;
    let internal_type := game_type_options (game_type_var g) in
    game_type ← lift (game_type_from_string internal_type);
    size ← _read_board_size;
    on_controller (GameController.start_game game_type size);;
    modify (set_result_notified false);;
    _refresh_board).

Definition _on_canvas_click (event : Z * Z) : M t unit :=
  g ← get;
  match GameController.engine (controller g) with
  | None => show (showinfo "提示" "请先开始对局，再在棋盘落子。")
  | Some _ =>
      match _board_area g with
      | None => mret tt
      | Some area =>
          if negb (inside area event) then mret tt
          else
            let size := GameController.board_size (controller g) in
            '(row, col) ← lift (locate area event);
            if negb ((0 <=? col) && (col <? size) && (0 <=? row) && (row <? size))
            then mret tt
            else guarded (on_controller (GameController.place_stone row col);;
                          _refresh_board)
      end
  end.
End WithEngine.
Arguments t E Area : clear implicits.
End GuiApp.

(** The canvas geometry of the GUI read over exact rationals instead of
    floating-point numbers.  The two agree where the divisions are exact in
    binary floating point, as on a canvas of 600 pixels for the boards of
    size 9, 15 and 19 of the samples (cells of 60, 37.5 and 30 pixels);
    elsewhere the
    rounding can move a click that falls half-way between two lines to the
    other line.  The module serves the samples only: the statements are
    made for any [layout], [inside] and [locate]. *)
Module ExactGeometry.
Record Area : Type := mk {
  start_x : Q; start_y : Q; end_x : Q; end_y : Q; cell : Q
}.

Definition layout (width height size : Z) : result Area :=
  if size + 1 =? 0 then Raise ZeroDivisionError
  else
    let cell := (inject_Z (Z.min width height) / inject_Z (size + 1))%Q in
    let grid_span := (cell * inject_Z (size - 1))%Q in
    let start_x := ((inject_Z width - grid_span) / 2)%Q in
    let start_y := ((inject_Z height - grid_span) / 2)%Q in
    Ok (mk start_x start_y (start_x + grid_span)%Q (start_y + grid_span)%Q cell).

Definition inside (a : Area) (event : Z * Z) : bool :=
  Qle_bool (start_x a) (inject_Z (fst event))
  && Qle_bool (inject_Z (fst event)) (end_x a)
  && Qle_bool (start_y a) (inject_Z (snd event))
  && Qle_bool (inject_Z (snd event)) (end_y a).

Definition locate (a : Area) (event : Z * Z) : result (Z * Z) :=
  if Qeq_bool (cell a) 0 then Raise ZeroDivisionError
  else
    let relative_x := (inject_Z (fst event) - start_x a)%Q in
    let relative_y := (inject_Z (snd event) - start_y a)%Q in
    let col := Qfloor ((relative_x + cell a / 2) / cell a) in
    let row := Qfloor ((relative_y + cell a / 2) / cell a) in
    Ok (row, col).
End ExactGeometry.

(* ===================================================================== *)
(** * Vocabulary of the statements *)
(* ===================================================================== *)

(** The method [m] stops on the missing-game check: it raises the error of
    [_require_engine] and leaves the controller as it was. *)
Definition refuses_without_game {E : Type} `{!Engine.Ops E} {A : Type}
    (m : M (GameController.t E) A) (c : GameController.t E) : Prop :=
  m c = (Raise (ValueError GameController.no_game_msg), c).

(** A save-format error, as [load] reports it. *)
Definition is_format_error {A : Type} (r : result A) : Prop :=
  exists msg, r = Raise (IOError msg).

(** The game-type value of a save names none of the known variants. *)
Definition unknown_variant (v : value) : Prop :=
  forall g : GameType, v <> VStr (GameType_value g).

(** The four defects of a save record that [load] validates. *)
Inductive format_defect (payload : gmap string value) : Prop :=
| no_game_type_key :
    payload !! "game_type" = None -> format_defect payload
| no_state_key :
    payload !! "state" = None -> format_defect payload
| unknown_game_type v :
    payload !! "game_type" = Some v -> unknown_variant v ->
    format_defect payload
| no_board_size m :
    payload !! "state" = Some (VDict m) -> m !! "board_size" = None ->
    format_defect payload.

(** Concrete controllers, saves and files on the engine of the
    specification with its default allotments. *)
Module Samples.
Definition ops : Engine.Ops SpecEngine.t :=
  SpecEngine.ops SpecEngine.default_config.

Definition idle : GameController.t SpecEngine.t :=
  @GameController.__init__ _.

Definition started (g : GameType) (n : Z) : GameController.t SpecEngine.t :=
  snd (@GameController.start_game _ ops g n idle).

Definition gomoku_15 : GameController.t SpecEngine.t := started GOMOKU 15.
Definition go_9 : GameController.t SpecEngine.t := started GO 9.

(** A record without its [state] key. *)
Definition save_without_state : gmap string value :=
  {[ "game_type" := VStr "go" ]}.

(** A well-formed record of a Gomoku game on a 5 x 5 board. *)
Definition save_of_size_5 : gmap string value :=
  {[ "game_type" := VStr "gomoku";
     "state" := SpecEngine.serialize
                  (SpecEngine.new SpecEngine.default_config GOMOKU 5) ]}.

Definition disk : persistence.files :=
  {[ "broken.json" := save_without_state;
     "small.json" := save_of_size_5 ]}.
End Samples.


(** An engine that accepts every call and keeps the positions handed to
    [play_move], in order; it shows what the layers above let through. *)
Module Probe.
Record t : Type := mk { size : Z; received : list Position }.

Definition ops : Engine.Ops t := {|
  Engine.GomokuEngine n := Ok (mk n []);
  Engine.GoEngine n := Ok (mk n []);
  Engine.play_move p := modify (fun s => mk (size s) (received s ++ [p]));
  Engine.pass_turn := mret tt;
  Engine.undo := mret tt;
  Engine.resign _ := mret tt;
  Engine.restart := mret tt;
  Engine.serialize := gets (fun s => VDict {[ "board_size" := VInt (size s) ]});
  Engine.deserialize _ := mret tt;
  Engine.current_player _ := BLACK;
  Engine.is_finished _ := false;
  Engine.get_result _ := Raise (EngineError GameNotFinished);
  Engine.stones_on_board _ _ := 0;
  Engine.stones_remaining _ _ := 0;
  Engine.undo_remaining _ _ := 0;
  Engine.board s := Board.empty (size s)
|}.

End Probe.

(** Concrete user-interface states on the sample controllers. *)
Module UiSamples.
(** A console whose controller runs the 9 x 9 Go game. *)
Definition console_go_9 : ConsoleClient.t SpecEngine.t :=
  ConsoleClient.mk Samples.go_9 true true [] Samples.disk.

Definition area_for (size : Z) : option ExactGeometry.Area :=
  match ExactGeometry.layout 600 600 size with
  | Ok a => Some a
  | Raise _ => None
  end.

End UiSamples.

(** The key of a position in the cells of a board. *)
Definition key (p : Position) : Z * Z := (row p, col p).

(** A move of the player to act: a placement or, in Go, a pass. *)
Inductive Move : Type :=
| Place (p : Position)
| Pass.

Definition apply (m : Move) (s : SpecEngine.t) : result SpecEngine.t :=
  match m with
  | Place p => SpecEngine.play p s
  | Pass => SpecEngine.pass s
  end.



(** Positions reached by play on the engine of the specification. *)
Module Games.
Fixpoint play_all (moves : list (Z * Z)) (s : SpecEngine.t) : SpecEngine.t :=
  match moves with
  | [] => s
  | (r, c) :: rest =>
      match SpecEngine.play (mkPosition r c) s with
      | Ok s' => play_all rest s'
      | Raise _ => s
      end
  end.

Definition after (m : Move) (s : SpecEngine.t) : SpecEngine.t :=
  match apply m s with Ok s' => s' | Raise _ => s end.

(** Gomoku, 15 x 15, Black to move with four in a row on row 7. *)
Definition four_in_a_row : SpecEngine.t :=
  play_all [(7, 7); (0, 0); (7, 8); (0, 1); (7, 9); (0, 2); (7, 10); (0, 3)]
           (SpecEngine.new SpecEngine.default_config GOMOKU 15).

(** Go, 9 x 9, Black to move; the white stone at (3, 3) has one liberty
    left, at (3, 4). *)
Definition before_capture : SpecEngine.t :=
  play_all [(2, 3); (3, 3); (4, 3); (8, 8); (3, 2); (8, 7)]
           (SpecEngine.new SpecEngine.default_config GO 9).

(** Go, 9 x 9, with no undo allotted. *)
Definition without_undos : SpecEngine.t := SpecEngine.fresh GO 9 81 0.
End Games.


(** Unfolding of the monad operations. *)
Ltac unfold_monad :=
  unfold mbind, M_bind, mret, M_ret, result_bind, result_ret, raise, get,
    gets, modify, lift, try_except, zoom in *.

Ltac run_method := unfold_monad; simpl in *.

(** The cell [p] is on the board [b] and holds [k]. *)
Definition matches (b : Board.t) (k : option PlayerColor) (p : Position) : Prop :=
  Board.in_bounds b p = true /\ SpecEngine.cell b p = k.

(** Number of cells of the board that hold [k] and are not yet in [seen]:
    what a flood fill still has to collect at most. *)
Definition pending (b : Board.t) (k : option PlayerColor)
    (seen : list Position) : nat :=
  length (filter (fun p => SpecEngine.cell b p = k /\ p ∉ seen)
                 (Board.positions b)).

(** The method [m], run on the controller [c], leaves the game type and the
    board size as they were, and neither installs nor removes an engine. *)
Definition keeps_identity {E : Type} `{!Engine.Ops E} {A : Type}
    (m : M (GameController.t E) A) (c : GameController.t E) : Prop :=
  GameController.game_type (snd (m c)) = GameController.game_type c
  /\ GameController.board_size (snd (m c)) = GameController.board_size c
  /\ (is_Some (GameController.engine (snd (m c)))
      <-> is_Some (GameController.engine c)).

(* ===================================================================== *)
(** * ui.gui, continued: buttons, panel and star points *)
(* ===================================================================== *)

Module GuiHandlers.
(** The marked intersections of a board: none below size 9, the usual ones
    for 9, 13 and 19, else the three lines at 2, the middle and 2 from the
    far edge. *)
Definition _star_points (size : Z) : list (Z * Z) :=
  if size <? 9 then []
  else
    let offsets :=
      if decide (size = 9) then [2; 4; 6]
      else if decide (size = 13) then [3; 6; 9]
      else if decide (size = 19) then [3; 9; 15]
      else [2; size `div` 2; size - 3] in
    r ← offsets; (fun c => (r, c)) <$> offsets.

Section WithEngine.
Context {E : Type} `{!Engine.Ops E} {Area : Type}.
Variable layout : Z -> Z -> Z -> result Area.

Definition set_canvas (width height : Z) (g : GuiApp.t E Area) : GuiApp.t E Area :=
  GuiApp.mk (GuiApp.controller g) (GuiApp._board_area g)
    (GuiApp._result_notified g) (GuiApp.game_type_var g)
    (GuiApp.board_size_var g) width height (GuiApp.winfo g) (GuiApp.dialogs g).

(** The state [_update_pass_button_state] gives the pass button: [true] for
    enabled.  The button exists once the window is built. *)
Definition _update_pass_button_state (g : GuiApp.t E Area) : bool :=
  match GameController.engine (GuiApp.controller g) with
  | None => false
  | Some _ =>
      if decide (GameController.game_type (GuiApp.controller g) ≠ Some GO)
      then false else true
  end.

(** The four lines of the information panel. *)
Record InfoVars : Type := mkInfoVars {
  info_game : string; info_turn : string;
  info_black : string; info_white : string
}.

Definition _update_info_panel (g : GuiApp.t E Area) : result InfoVars :=
  let c := GuiApp.controller g in
  match GameController.engine c with
  | None =>
      Ok (mkInfoVars "游戏: --" "当前行棋方: --"
            "黑方: 在盘 -- / 库存 -- / 悔棋 --"
            "白方: 在盘 -- / 库存 -- / 悔棋 --")
  | Some engine =>
      let size := GameController.board_size c in
      let game_label :=
        match GameController.game_type c with
        | Some GOMOKU => "五子棋"
        | Some GO => "围棋"
        | None => "未知游戏"
        end in
      let current :=
        if decide (Engine.current_player engine = BLACK) then "黑方" else "白方" in
      snapshot ← fst (GameController.get_resource_snapshot c);
      let line (color : PlayerColor) (label : string) :=
        let data := snapshot color in
        label +:+ ": 在盘" +:+ pretty (GameController.res_stones_on_board data)
          +:+ "枚，库存" +:+ pretty (GameController.res_stones_remaining data)
          +:+ "枚，悔棋余量" +:+ pretty (GameController.res_undo_remaining data)
          +:+ "次" in
      Ok (mkInfoVars
            ("游戏: " +:+ game_label +:+ " " +:+ pretty size +:+ "x" +:+ pretty size)
            ("当前行棋方: " +:+ current)
            (line BLACK "黑方") (line WHITE "白方"))
  end.

Definition _restart_game : M (GuiApp.t E Area) unit :=
  GuiApp.guarded (
    GuiApp.on_controller GameController.restart;;
    modify (GuiApp.set_result_notified false);;
    GuiApp._refresh_board layout).

Definition _pass_turn : M (GuiApp.t E Area) unit :=
  GuiApp.guarded (
    GuiApp.on_controller GameController.pass_turn;;
    GuiApp._refresh_board layout).

Definition _undo_move : M (GuiApp.t E Area) unit :=
  GuiApp.guarded (
    GuiApp.on_controller GameController.undo;;
    GuiApp._refresh_board layout).

Definition _resign : M (GuiApp.t E Area) unit :=
  GuiApp.guarded (
    GuiApp.on_controller (GameController.resign None);;
    GuiApp._refresh_board layout).

(** [chosen] is what the file dialog returns, the empty string when it is
    cancelled; the dialog is only opened once a game is there. *)
Definition _save_game (chosen : string) (fs : persistence.files)
    : M (GuiApp.t E Area) persistence.files :=
  g ← get;
  match GameController.engine (GuiApp.controller g) with
  | None =>
      GuiApp.show (GuiApp.showinfo "提示" "请先开始对局，再执行保存。");;
      mret fs
  | Some _ =>
      if decide (chosen = "") then mret fs
      else
        try_except
          (GuiApp.on_controller (GameController.save chosen fs))
          (fun error => Some (GuiApp._handle_error error;; mret fs))
  end.

Definition _load_game (chosen : string) (fs : persistence.files)
    : M (GuiApp.t E Area) unit :=
  if decide (chosen = "") then mret tt
  else
    GuiApp.guarded (
      GuiApp.on_controller (GameController.load chosen fs);;
      modify (GuiApp.set_result_notified false);;
      GuiApp._refresh_board layout).

Definition _handle_canvas_resize (width height : Z) : M (GuiApp.t E Area) unit :=
  g ← get;
  if (width =? GuiApp._canvas_width g) && (height =? GuiApp._canvas_height g)
  then mret tt
  else
    modify (set_canvas width height);;
    GuiApp._refresh_board layout.
End WithEngine.
End GuiHandlers.

(** The GUI method [m] never changes the controller behind the window. *)
Definition keeps_controller {E : Type} `{!Engine.Ops E} {Area A : Type}
    (m : M (GuiApp.t E Area) A) : Prop :=
  forall g, GuiApp.controller (snd (m g)) = GuiApp.controller g.

(** More windows on the sample controllers. *)
Module WindowSamples.
(** The window as it opens: no game yet. *)
Definition fresh_window : GuiApp.t SpecEngine.t ExactGeometry.Area :=
  GuiApp.mk Samples.idle None false "五子棋" "15" 600 600 (600, 600) [].

(** A window on the 9 x 9 Go game, laid out for it. *)
Definition window_go_9 : GuiApp.t SpecEngine.t ExactGeometry.Area :=
  GuiApp.mk Samples.go_9 (UiSamples.area_for 9) false "围棋" "9" 600 600
    (600, 600) [].

(** A window on the 15 x 15 Gomoku game. *)
Definition window_gomoku_15 : GuiApp.t SpecEngine.t ExactGeometry.Area :=
  GuiApp.mk Samples.gomoku_15 (UiSamples.area_for 15) false "五子棋" "15"
    600 600 (600, 600) [].
End WindowSamples.

(* ===================================================================== *)
(** * ui.cli, continued: the command table and the loop *)
(* ===================================================================== *)

Module ConsoleLoop.
(** White space as [str.split] and [str.strip] see it, among the ASCII
    characters: tab to carriage return, the four separators 28 to 31, and
    the space. *)
Definition is_whitespace (a : ascii) : bool :=
  let n := nat_of_ascii a in
  ((9 <=? n) && (n <=? 13) || (28 <=? n) && (n <=? 32))%nat.

(** [cur] is the word being read, possibly empty. *)
Fixpoint split_from (s : string) (cur : string) : list string :=
  match s with
  | EmptyString => if decide (cur = "") then [] else [cur]
  | String a s' =>
      if is_whitespace a
      then (if decide (cur = "") then split_from s' ""
            else cur :: split_from s' "")
      else split_from s' (cur +:+ String a "")
  end.

(** [s.split()]: the words of [s], separated by runs of white space. *)
Definition split (s : string) : list string := split_from s "".

Definition lower_char (a : ascii) : ascii :=
  let n := nat_of_ascii a in
  if ((65 <=? n) && (n <=? 90))%nat then ascii_of_nat (n + 32) else a.

(** [s.lower()] on ASCII letters; this is all the lookup of a command name
    can depend on, no command name being the lower case of a word with
    other letters. *)
Fixpoint lower (s : string) : string :=
  match s with
  | EmptyString => EmptyString
  | String a s' => String (lower_char a) (lower s')
  end.

(** [f"{text:<25}"]: padded with spaces on the right to 25 characters. *)
Definition ljust_25 (text : string) : string :=
  text +:+ String.concat "" (replicate (25 - String.length text) " ").

(** How a handler ends: it returns, it raises an exception, or it leaves
    the program through [sys.exit], which no [except Exception] catches. *)
Inductive Signal : Type :=
| Returned
| Raised (e : exn)
| SystemExit (code : Z).

Section WithEngine.
Context {E : Type} `{!Engine.Ops E}.

(** The GUI session opened by the [gui] command, when a launcher is
    attached: it works on the shared controller and, through its save
    button, on the files. *)
Variable gui_launcher
  : option (M (GameController.t E * persistence.files) unit).

(** The line printed for an exception that is neither a [ValueError] nor an
    [IOError] built by the modelled code: its text, and for the exceptions
    of the engines their class, are not in the sources. *)
Variable describe : exn -> string.

Definition Handler : Type := list string -> ConsoleClient.t E -> Signal * ConsoleClient.t E.

Definition method (m : list string -> M (ConsoleClient.t E) unit) : Handler :=
  fun args s =>
    match m args s with
    | (Ok _, s') => (Returned, s')
    | (Raise e, s') => (Raised e, s')
    end.

Record Command : Type := mkCommand {
  name : string; usage : string; description : string; handler : Handler
}.

Definition _cmd_gui (args : list string) : M (ConsoleClient.t E) unit :=
  match gui_launcher with
  | Some launcher =>
      zoom (fun s => (ConsoleClient.controller s, ConsoleClient.files s))
           (fun cf s => ConsoleClient.set_files (snd cf)
                          (ConsoleClient.set_controller (fst cf) s))
           launcher
  | None => ConsoleClient.print "GUI launcher not configured."
  end.

Definition _cmd_exit : Handler := fun args s =>
  (SystemExit 0,
   snd (ConsoleClient.print "Goodbye!"
          (ConsoleClient.mk (ConsoleClient.controller s) false
             (ConsoleClient.show_prompts s) (ConsoleClient.stdout s)
             (ConsoleClient.files s)))).

(** The table without the [help] entry, whose handler lists the table. *)
Definition other_commands : list Command :=
  [ mkCommand "start" "start <gomoku|go> <size>" "Start a new game"
      (method ConsoleClient._cmd_start);
    mkCommand "move" "move <row> <col>" "Place a stone"
      (method ConsoleClient._cmd_move);
    mkCommand "pass" "pass" "Pass turn (Go only)" (method ConsoleClient._cmd_pass);
    mkCommand "undo" "undo" "Undo last move" (method ConsoleClient._cmd_undo);
    mkCommand "resign" "resign" "Resign current game"
      (method ConsoleClient._cmd_resign);
    mkCommand "restart" "restart" "Restart current game"
      (method ConsoleClient._cmd_restart);
    mkCommand "save" "save <file>" "Save current game"
      (method ConsoleClient._cmd_save);
    mkCommand "load" "load <file>" "Load saved game"
      (method ConsoleClient._cmd_load);
    mkCommand "board" "board" "Display board" (method ConsoleClient._cmd_board);
    mkCommand "status" "status" "Show game status"
      (method ConsoleClient._cmd_status);
    mkCommand "hint" "hint" "Toggle prompts" (method ConsoleClient._cmd_hint) ].

Definition help_lines : list string :=
  (fun cmd => "- " +:+ ljust_25 (usage cmd) +:+ " " +:+ description cmd)
    <$> (other_commands
         ++ [ mkCommand "help" "help" "List commands" (fun _ s => (Returned, s));
              mkCommand "gui" "gui" "Launch GUI" (fun _ s => (Returned, s));
              mkCommand "exit" "exit" "Exit program" (fun _ s => (Returned, s)) ]).

Definition _cmd_help (args : list string) : M (ConsoleClient.t E) unit :=
  ConsoleClient.print "Available commands:";;
  foldr (fun line rest => ConsoleClient.print line;; rest) (mret tt) help_lines.

(** [COMMAND_SPECS] with the handlers bound, in the order of the table. *)
Definition commands : list Command :=
  other_commands
  ++ [ mkCommand "help" "help" "List commands" (method _cmd_help);
       mkCommand "gui" "gui" "Launch GUI" (method _cmd_gui);
       mkCommand "exit" "exit" "Exit program" _cmd_exit ].

(** [self.commands.get(command_name)] *)
Definition lookup_command (command_name : string) : option Command :=
  List.find (fun cmd => bool_decide (name cmd = command_name)) commands.

Definition prompt_line : string :=
  "Available commands: start, move, pass, undo, resign, restart, save, load, board, status, hint, help, gui, exit".

Definition say (line : string) (s : ConsoleClient.t E) : ConsoleClient.t E :=
  snd (ConsoleClient.print line s).

(** One line of input, from the test for an empty line to the end of the
    body of the loop.  The result is the exit code when the program is left.
    The line is stripped and then split; a stripped line is empty exactly
    when it has no word. *)
Definition step (raw : string) (s : ConsoleClient.t E)
    : option Z * ConsoleClient.t E :=
  match split raw with
  | [] => (None, s)
  | first :: args =>
      match lookup_command (lower first) with
      | None =>
          (None, say "Unknown command. Type 'help' for a list of commands." s)
      | Some command =>
          match handler command args s with
          | (Returned, s') => (None, s')
          | (Raised (ValueError msg), s') => (None, say ("错误: " +:+ msg) s')
          | (Raised (IOError msg), s') => (None, say ("错误: " +:+ msg) s')
          | (Raised error, s') => (None, say (describe error) s')
          | (SystemExit code, s') => (Some code, s')
          end
      end
  end.

(** The loop of [run] on the lines the user will type; when they run out,
    [input] raises [EOFError].  What [input] writes as its prompt is not
    kept in [stdout]. *)
Fixpoint loop (inputs : list string) (s : ConsoleClient.t E)
    : option Z * ConsoleClient.t E :=
  if negb (ConsoleClient.running s) then (None, s)
  else
    let s := if ConsoleClient.show_prompts s then say prompt_line s else s in
    match inputs with
    | [] => (None, say (newline +:+ "Exiting...") s)
    | raw :: rest =>
        match step raw s with
        | (Some code, s') => (Some code, s')
        | (None, s') => loop rest s'
        end
    end.

Definition run (inputs : list string) (s : ConsoleClient.t E)
    : option Z * ConsoleClient.t E :=
  loop inputs (say "Chess Platform CLI - type 'help' for instructions" s).
End WithEngine.
End ConsoleLoop.

(** The console method [m] leaves the part [proj] of the client as it was,
    whether it returns or raises. *)
Definition preserves {E : Type} `{!Engine.Ops E} {X A : Type}
    (proj : ConsoleClient.t E -> X) (m : M (ConsoleClient.t E) A) : Prop :=
  forall s, proj (snd (m s)) = proj s.

(** The part [proj] of the client does not depend on the output, on the
    controller, on the prompt switch, on the files. *)
Definition ignores_output {E : Type} `{!Engine.Ops E} {X : Type}
    (proj : ConsoleClient.t E -> X) : Prop :=
  forall c r p out out' f,
    proj (ConsoleClient.mk c r p out f) = proj (ConsoleClient.mk c r p out' f).
Definition ignores_controller {E : Type} `{!Engine.Ops E} {X : Type}
    (proj : ConsoleClient.t E -> X) : Prop :=
  forall c c' r p out f,
    proj (ConsoleClient.mk c r p out f) = proj (ConsoleClient.mk c' r p out f).
Definition ignores_prompts {E : Type} `{!Engine.Ops E} {X : Type}
    (proj : ConsoleClient.t E -> X) : Prop :=
  forall c r p p' out f,
    proj (ConsoleClient.mk c r p out f) = proj (ConsoleClient.mk c r p' out f).
Definition ignores_files {E : Type} `{!Engine.Ops E} {X : Type}
    (proj : ConsoleClient.t E -> X) : Prop :=
  forall c r p out f f',
    proj (ConsoleClient.mk c r p out f) = proj (ConsoleClient.mk c r p out f').
Definition ignores_running {E : Type} `{!Engine.Ops E} {X : Type}
    (proj : ConsoleClient.t E -> X) : Prop :=
  forall c r r' p out f,
    proj (ConsoleClient.mk c r p out f) = proj (ConsoleClient.mk c r' p out f).

(** The texts on which [ConsoleLoop.split], [ConsoleLoop.lower] and [py_int]
    read as Python's [str.split], [str.lower] and [int] do: ASCII characters,
    none of them one of the separators 28 to 31, and at most 4300 of them,
    so that a numeral among them is within the digit limit of [int]. *)
Definition plain_text (text : string) : bool :=
  (String.length text <=? 4300)%nat
  && forallb (fun a => let n := nat_of_ascii a in
                       ((n <? 28) || ((31 <? n) && (n <? 128)))%nat)
             (list_ascii_of_string text).

(** The first word of a line, in lower case: the command name looked up. *)
Definition command_word (raw : string) : option string :=
  ConsoleLoop.lower <$> head (ConsoleLoop.split raw).

(** The line holds nothing but white space. *)
Fixpoint blank (raw : string) : bool :=
  match raw with
  | EmptyString => true
  | String a rest => ConsoleLoop.is_whitespace a && blank rest
  end.

(** The fourteen command names, in the order of the table. *)
Definition command_names : list string :=
  ["start"; "move"; "pass"; "undo"; "resign"; "restart"; "save"; "load";
   "board"; "status"; "hint"; "help"; "gui"; "exit"].

(** A console session on the sample engine: no GUI attached, and one text
    for every exception that is neither a [ValueError] nor an [IOError]. *)
Module ConsoleSamples.
Definition no_gui : option (M (GameController.t SpecEngine.t * persistence.files) unit) :=
  None.
Definition describe (error : exn) : string := "未知错误".
Definition fresh_console : ConsoleClient.t SpecEngine.t :=
  ConsoleClient.__init__ Samples.disk.
End ConsoleSamples.

(* ===================================================================== *)
(** * Properties of the controller, for every engine *)
(* ===================================================================== *)

Section ControllerFacts.
Context {E : Type} `{!Engine.Ops E}.
Implicit Types (c : GameController.t E) (e : E).

Import GameController.

Lemma set_engine_same c e : engine c = Some e -> set_engine (Some e) c = c.
Proof. destruct c; simpl; intros ->; reflexivity. Qed.

Lemma require_engine_none c :
  engine c = None -> _require_engine c = (Raise (ValueError no_game_msg), c).
Proof. intros Hc. unfold _require_engine. run_method. rewrite Hc. reflexivity. Qed.

Lemma require_engine_some c e :
  engine c = Some e -> _require_engine c = (Ok e, c).
Proof. intros Hc. unfold _require_engine. run_method. rewrite Hc. reflexivity. Qed.

(** A method that starts with [_require_engine] stops there when no game
    is active. *)
Lemma guarded_by_require {A} (k : E -> M (t E) A) c :
  engine c = None ->
  (_require_engine ≫= k) c = (Raise (ValueError no_game_msg), c).
Proof.
  intros Hc. unfold mbind, M_bind. rewrite (require_engine_none c Hc).
  reflexivity.
Qed.

Lemma after_require {A} (k : E -> M (t E) A) c e :
  engine c = Some e -> (_require_engine ≫= k) c = k e c.
Proof.
  intros Hc. unfold mbind, M_bind. rewrite (require_engine_some c e Hc).
  reflexivity.
Qed.


Lemma pass_turn_active c e :
  engine c = Some e ->
  pass_turn c =
    if decide (game_type c ≠ Some GO)
    then (Raise (ValueError pass_only_go_msg), c)
    else on_engine Engine.pass_turn c.
Proof.
  intros Hc. unfold pass_turn. rewrite (after_require _ c e Hc).
  run_method. destruct (decide (game_type c ≠ Some GO)); reflexivity.
Qed.

Lemma resign_active c e color :
  engine c = Some e ->
  resign color c =
    on_engine (Engine.resign (default (Engine.current_player e) color)) c.
Proof. intros Hc. unfold resign. rewrite (after_require _ c e Hc). reflexivity. Qed.

Lemma on_engine_some {A} (m : M E A) c e :
  engine c = Some e ->
  on_engine m c = (fst (m e), set_engine (Some (snd (m e))) c).
Proof. intros Hc. unfold on_engine. rewrite Hc. destruct (m e); reflexivity. Qed.
End ControllerFacts.

Section NoActiveGame.
Context {E : Type} `{!Engine.Ops E}.
Import GameController.

(** C8: every controller operation that needs an active game
    ([place_stone], [pass_turn], [undo], [resign], [restart], [save],
    [get_board_display], [get_status], [get_resource_snapshot]) raises the
    missing-game error when [engine] is [None], and leaves the controller
    untouched; no engine method is reached. *)
Theorem operations_need_active_game (c : GameController.t E) :
  engine c = None ->
  (forall row col, refuses_without_game (place_stone row col) c) /\
  refuses_without_game pass_turn c /\
  refuses_without_game undo c /\
  (forall color, refuses_without_game (resign color) c) /\
  refuses_without_game restart c /\
  (forall file_path fs, refuses_without_game (save file_path fs) c) /\
  refuses_without_game get_board_display c /\
  refuses_without_game get_status c /\
  refuses_without_game get_resource_snapshot c.
Proof.
  intros Hc. unfold refuses_without_game.
  repeat split; intros; apply guarded_by_require; exact Hc.
Qed.
End NoActiveGame.

Section PassTurn.
Context {E : Type} `{!Engine.Ops E}.
Import GameController.

End PassTurn.

Section Load.
Context {E : Type} `{!Engine.Ops E}.
Import GameController.

Lemma unknown_variant_raises v :
  unknown_variant v ->
  exists text, GameType_of_value v = Raise (ValueError text).
Proof.
  intros Hv. destruct v; simpl; eauto.
  destruct (decide (s = "gomoku")) as [->|]; [destruct (Hv GOMOKU); reflexivity|].
  destruct (decide (s = "go")) as [->|]; [destruct (Hv GO); reflexivity|].
  eauto.
Qed.

Lemma GameType_of_value_error v err :
  GameType_of_value v = Raise err -> exists text, err = ValueError text.
Proof.
  destruct v; simpl; try (intros [= <-]; eauto).
  destruct (decide (s = "gomoku")); [discriminate|].
  destruct (decide (s = "go")); [discriminate|].
  intros [= <-]; eauto.
Qed.

(** What [load] does once the file has been read. *)
Lemma load_read file_path fs payload c :
  fs !! file_path = Some payload ->
  load file_path fs c =
    match payload !! "game_type", payload !! "state" with
    | Some game_type_value, Some state =>
        (game_type ← try_except (lift (GameType_of_value game_type_value))
           (fun error =>
              match error with
              | ValueError text => Some (raise (IOError (unknown_type_msg +:+ text)))
              | _ => None
              end);
         board_size ← lift (value_get "board_size" state);
         match board_size with
         | VNone => raise (IOError no_board_size_msg)
         | _ =>
             board_size ← lift (expect_int board_size);
             e ← lift (create_engine game_type board_size);
             modify (set_engine (Some e));;
             on_engine (Engine.deserialize state);;
             modify (set_game_type (Some game_type));;
             modify (set_board_size board_size)
         end) c
    | _, _ => (Raise (IOError bad_format_msg), c)
    end.
Proof.
  intros Hf. unfold load, persistence.load_game. rewrite Hf.
  unfold mbind at 1, M_bind at 1, lift at 1.
  destruct (payload !! "game_type"), (payload !! "state"); reflexivity.
Qed.

(** A save with one of the four defects is refused with a format error
    and without any change to the controller. *)
Lemma load_defect file_path fs payload c :
  fs !! file_path = Some payload ->
  format_defect payload ->
  exists msg, load file_path fs c = (Raise (IOError msg), c).
Proof.
  intros Hf Hd. rewrite (load_read _ _ _ _ Hf).
  destruct Hd as [Hg | Hs | v Hg Hv | m Hs Hb].
  - rewrite Hg. eauto.
  - rewrite Hs. destruct (payload !! "game_type"); eauto.
  - rewrite Hg. destruct (payload !! "state") as [state|]; [|eauto].
    destruct (unknown_variant_raises v Hv) as [text Ht].
    run_method. rewrite Ht. eauto.
  - rewrite Hs. destruct (payload !! "game_type") as [v|]; [|eauto].
    run_method.
    destruct (GameType_of_value v) as [g|err] eqn:Hv.
    + rewrite Hb. simpl. eauto.
    + destruct (GameType_of_value_error v err Hv) as [text ->]. eauto.
Qed.

(** Loading fails with a save-format error whenever the record lacks the
    [game_type] key or the [state] key, its game type names no known
    variant, or its state is a record with no [board_size] field. *)
Lemma load_rejects_malformed_save file_path fs payload
    (c : GameController.t E) :
  fs !! file_path = Some payload ->
  format_defect payload ->
  is_format_error (fst (load file_path fs c)).
Proof.
  intros Hf Hd. destruct (load_defect file_path fs payload c Hf Hd) as [msg Hl].
  exists msg. rewrite Hl. reflexivity.
Qed.

(** A state that is no record has no [get]: whatever the engine and the
    controller, [load] raises Python's attribute error on it, before
    anything is assigned. *)
Lemma load_state_without_get file_path fs payload (c : GameController.t E)
    v g state :
  fs !! file_path = Some payload ->
  payload !! "game_type" = Some v ->
  GameType_of_value v = Ok g ->
  payload !! "state" = Some state ->
  (forall m, state <> VDict m) ->
  load file_path fs c
  = (Raise (AttributeError "object has no attribute 'get'"), c).
Proof.
  intros Hf Hg Hv Hs Hstate. rewrite (load_read _ _ _ _ Hf), Hg, Hs.
  run_method. rewrite Hv.
  destruct state; try reflexivity. destruct (Hstate _ eq_refl).
Qed.

(** C3: a save whose state is [null] holds no board size, yet loading it
    is not refused with a save-format error: for every engine and every
    controller, [load] raises the attribute error of calling [get] on the
    state, which is no [IOError]; the controller is left as it was. *)
Theorem load_null_state_is_no_format_error (c : GameController.t E) :
  let payload : gmap string value :=
    {[ "game_type" := VStr "go"; "state" := VNone ]} in
  let fs : persistence.files := {[ "null.json" := payload ]} in
  payload !! "state" = Some VNone
  /\ load "null.json" fs c
     = (Raise (AttributeError "object has no attribute 'get'"), c)
  /\ ~ is_format_error (fst (load "null.json" fs c)).
Proof.
  intros payload fs.
  assert (Hrun : load "null.json" fs c
                 = (Raise (AttributeError "object has no attribute 'get'"), c)).
  { apply (load_state_without_get "null.json" fs payload c (VStr "go") GO VNone);
      try reflexivity.
    intros m Hm. discriminate Hm. }
  split; [reflexivity|]. split; [exact Hrun|].
  rewrite Hrun. intros [msg Hmsg]. discriminate Hmsg.
Qed.

(** C9: a load refused by one of the format validations leaves the
    controller's engine, game type and board size exactly as they were. *)
Theorem rejected_load_keeps_running_game file_path fs payload
    (c : GameController.t E) :
  fs !! file_path = Some payload ->
  format_defect payload ->
  let c' := snd (load file_path fs c) in
  c' = c /\ engine c' = engine c /\ game_type c' = game_type c
  /\ board_size c' = board_size c.
Proof.
  intros Hf Hd. destruct (load_defect file_path fs payload c Hf Hd) as [msg Hl].
  simpl. rewrite Hl. simpl. auto.
Qed.
End Load.

(** The statements above at concrete controllers. *)
Section SampleRuns.
#[local] Existing Instance Samples.ops.

Lemma operations_need_active_game_fresh :
  let c := Samples.idle in
  GameController.engine c = None /\
  (forall row col,
      refuses_without_game (GameController.place_stone row col) c) /\
  refuses_without_game GameController.pass_turn c /\
  refuses_without_game GameController.undo c /\
  (forall color, refuses_without_game (GameController.resign color) c) /\
  refuses_without_game GameController.restart c /\
  (forall file_path fs,
      refuses_without_game (GameController.save file_path fs) c) /\
  refuses_without_game GameController.get_board_display c /\
  refuses_without_game GameController.get_status c /\
  refuses_without_game GameController.get_resource_snapshot c.
Proof.
  split; [reflexivity|].
  apply (@operations_need_active_game _ Samples.ops Samples.idle).
  reflexivity.
Defined.


Lemma load_rejects_save_without_state :
  Samples.disk !! "broken.json" = Some Samples.save_without_state /\
  format_defect Samples.save_without_state /\
  is_format_error
    (fst (GameController.load "broken.json" Samples.disk Samples.go_9)).
Proof.
  assert (Hd : format_defect Samples.save_without_state)
    by (apply no_state_key; reflexivity).
  split; [reflexivity|]. split; [exact Hd|].
  apply (@load_rejects_malformed_save _ Samples.ops "broken.json" Samples.disk
           Samples.save_without_state Samples.go_9); [reflexivity | exact Hd].
Defined.

Lemma rejected_load_keeps_go_9 :
  Samples.disk !! "broken.json" = Some Samples.save_without_state /\
  format_defect Samples.save_without_state /\
  snd (GameController.load "broken.json" Samples.disk Samples.go_9)
    = Samples.go_9.
Proof.
  assert (Hd : format_defect Samples.save_without_state)
    by (apply no_state_key; reflexivity).
  split; [reflexivity|]. split; [exact Hd|].
  apply (@rejected_load_keeps_running_game _ Samples.ops "broken.json" Samples.disk
           Samples.save_without_state Samples.go_9); [reflexivity | exact Hd].
Defined.
End SampleRuns.

Section Save.
Context {E : Type} `{!Engine.Ops E}.
Import GameController.

(** The record written by [save]. *)
Lemma save_active (c : GameController.t E) (e : E) file_path fs :
  engine c = Some e ->
  save file_path fs c =
    match Engine.serialize e with
    | (Ok state, e') =>
        (Ok (<[file_path :=
                 {[ "game_type" := match game_type c with
                                   | None => VNone
                                   | Some g => VStr (GameType_value g)
                                   end;
                    "state" := state ]}]> fs),
         set_engine (Some e') c)
    | (Raise err, e') => (Raise err, set_engine (Some e') c)
    end.
Proof.
  intros Hc. unfold save. rewrite (after_require _ c e Hc).
  unfold mbind at 1, M_bind at 1, get at 1.
  unfold mbind, M_bind. rewrite (on_engine_some _ c e Hc).
  destruct (Engine.serialize e) as [[state|err] e']; reflexivity.
Qed.
End Save.

Section SaveOnSpecEngine.
Variable cfg : SpecEngine.Config.
Import GameController.

(** C7: for a controller that holds an engine, [save] writes at the given
    path a record with exactly the two keys [game_type] and [state]; the
    first holds the tag of the controller's game type, or [null] when the
    controller has none, the second the engine's serialized state, and the
    board size is a field of that state, where [load] looks for it.  The
    game itself is not changed. *)
Theorem save_writes_tagged_state (c : GameController.t SpecEngine.t)
    (e : SpecEngine.t) file_path fs :
  engine c = Some e ->
  exists payload : gmap string value,
    @save _ (SpecEngine.ops cfg) file_path fs c
    = (Ok (<[file_path := payload]> fs), c)
    /\ dom payload = {[ "game_type"; "state" ]}
    /\ payload !! "game_type"
       = Some (match game_type c with
               | Some g => VStr (GameType_value g)
               | None => VNone
               end)
    /\ payload !! "state" = Some (SpecEngine.serialize e)
    /\ value_get "board_size" (SpecEngine.serialize e)
       = Ok (VInt (Board.size (SpecEngine.board e))).
Proof.
  intros Hc.
  exists {[ "game_type" := match game_type c with
                           | Some g => VStr (GameType_value g)
                           | None => VNone
                           end;
            "state" := SpecEngine.serialize e ]}.
  split.
  { rewrite (@save_active _ (SpecEngine.ops cfg) c e file_path fs Hc).
    simpl. destruct (game_type c);
      rewrite (set_engine_same c e Hc); reflexivity. }
  split.
  { rewrite dom_insert_L, dom_singleton_L. reflexivity. }
  split; [apply lookup_insert_eq|]. split; [reflexivity|].
  reflexivity.
Qed.
End SaveOnSpecEngine.

Section BoardSizeBound.
Context {E : Type} `{!Engine.Ops E}.



Context {Area : Type}.
Variable layout : Z -> Z -> Z -> result Area.

(** The start button of the GUI: the same bound, checked by
    [_read_board_size]; the error goes to a dialog and the controller is
    not called. *)
Lemma gui_start_size_out_of_range (g : GuiApp.t E Area) n :
  py_int (GuiApp.board_size_var g) = Some n ->
  n < 8 \/ 19 < n ->
  exists err,
    GuiApp._start_game layout g = (Ok tt, snd (GuiApp.show (GuiApp.showerror err) g))
    /\ GuiApp.controller (snd (GuiApp._start_game layout g)) = GuiApp.controller g.
Proof.
  intros Hn Hr.
  assert (Hb : (n <? 8) || (19 <? n) = true).
  { apply orb_true_iff. destruct Hr; [left; apply Z.ltb_lt | right; apply Z.ltb_lt]; lia. }
  unfold GuiApp._start_game, GuiApp.guarded, GuiApp._read_board_size,
    GuiApp._handle_error.
  run_method. rewrite Hn, Hb.
  destruct (game_type_from_string _) as [gt|err]; simpl; eauto.
Qed.

(** [load] hands the board size found in the save to the engine constructor
    as it is: when the constructor and [deserialize] accept it, it becomes
    the controller's board size. *)
Lemma load_adopts_board_size file_path fs payload (c : GameController.t E)
    v g m n e0 e1 :
  fs !! file_path = Some payload ->
  payload !! "game_type" = Some v ->
  GameType_of_value v = Ok g ->
  payload !! "state" = Some (VDict m) ->
  m !! "board_size" = Some (VInt n) ->
  GameController.create_engine g n = Ok e0 ->
  Engine.deserialize (VDict m) e0 = (Ok tt, e1) ->
  GameController.load file_path fs c
    = (Ok tt, GameController.mk (Some e1) (Some g) n).
Proof.
  intros Hf Hg Hv Hs Hb Hc Hd. rewrite (load_read _ _ _ _ Hf), Hg, Hs.
  run_method. rewrite Hv, Hb. simpl. rewrite Hc. simpl.
  unfold GameController.on_engine. simpl. rewrite Hd. reflexivity.
Qed.
End BoardSizeBound.

Section BoardSizeOfLoadedGame.
#[local] Existing Instance Samples.ops.

End BoardSizeOfLoadedGame.

(* ===================================================================== *)
(** * Reading back a printed integer *)
(* ===================================================================== *)

Section IntParsing.















End IntParsing.

(* ===================================================================== *)
(** * Coordinates typed in the console *)
(* ===================================================================== *)

Section ConsoleMove.
Context {E : Type} `{!Engine.Ops E}.
Import ConsoleClient.







End ConsoleMove.

(* ===================================================================== *)
(** * Positions outside the board *)
(* ===================================================================== *)

Section CanvasClick.
Context {E : Type} `{!Engine.Ops E} {Area : Type}.
Variable layout : Z -> Z -> Z -> result Area.
Variable inside : Area -> Z * Z -> bool.
Variable locate : Area -> Z * Z -> result (Z * Z).

End CanvasClick.

Section EngineBounds.
Import SpecEngine.

End EngineBounds.

Section InvalidPositions.
Context {E : Type} `{!Engine.Ops E} {Area : Type}.
Variable layout : Z -> Z -> Z -> result Area.
Variable inside : Area -> Z * Z -> bool.
Variable locate : Area -> Z * Z -> result (Z * Z).

End InvalidPositions.

Section WhatReachesTheEngine.
#[local] Existing Instance Probe.ops.


End WhatReachesTheEngine.

(** The statements on the user interfaces at concrete states. *)
Section SampleInterfaces.
#[local] Existing Instance Samples.ops.



Lemma save_go_9_writes_tagged_state :
  GameController.engine Samples.go_9
    = Some (SpecEngine.new SpecEngine.default_config GO 9)
  /\ exists payload : gmap string value,
       GameController.save "game.json" Samples.disk Samples.go_9
       = (Ok (<["game.json" := payload]> Samples.disk), Samples.go_9)
       /\ dom payload = {[ "game_type"; "state" ]}
       /\ payload !! "game_type" = Some (VStr (GameType_value GO))
       /\ payload !! "state"
          = Some (SpecEngine.serialize (SpecEngine.new SpecEngine.default_config GO 9))
       /\ GameController.value_get "board_size"
            (SpecEngine.serialize (SpecEngine.new SpecEngine.default_config GO 9))
          = Ok (VInt (Board.size (SpecEngine.board
                                    (SpecEngine.new SpecEngine.default_config GO 9)))).
Proof.
  split; [reflexivity|].
  apply (save_writes_tagged_state SpecEngine.default_config Samples.go_9
           (SpecEngine.new SpecEngine.default_config GO 9) "game.json"
           Samples.disk eq_refl).
Defined.

(** A fresh controller on which [load] got as far as building the engine
    and then failed in [deserialize] holds an engine, here of a Gomoku game
    on a 15 x 15 board, and no game type; [save] succeeds on it and writes
    [null] under [game_type], which is the tag of no variant. *)
Lemma save_after_failed_load_writes_no_tag :
  let half : persistence.files :=
    {[ "half.json" := {[ "game_type" := VStr "gomoku";
                         "state" := VDict {[ "board_size" := VInt 15 ]} ]} ]} in
  let loaded := GameController.load "half.json" half Samples.idle in
  let c := snd loaded in
  fst loaded = Raise (EngineError CorruptSave)
  /\ GameController.engine c
     = Some (SpecEngine.new SpecEngine.default_config GOMOKU 15)
  /\ GameController.game_type c = None
  /\ exists payload : gmap string value,
       GameController.save "out.json" half c
       = (Ok (<["out.json" := payload]> half), c)
       /\ payload !! "game_type" = Some VNone
       /\ forall g : GameType,
            payload !! "game_type" <> Some (VStr (GameType_value g)).
Proof.
  intros half loaded c.
  assert (Hload : loaded
                  = (Raise (EngineError CorruptSave),
                     GameController.mk
                       (Some (SpecEngine.new SpecEngine.default_config GOMOKU 15))
                       None 0))
    by (vm_compute; reflexivity).
  unfold c. rewrite Hload. cbn [fst snd].
  split; [reflexivity|]. split; [reflexivity|]. split; [reflexivity|].
  exists {[ "game_type" := VNone;
            "state" := SpecEngine.serialize
                         (SpecEngine.new SpecEngine.default_config GOMOKU 15) ]}.
  split.
  - rewrite (save_active
               (GameController.mk
                  (Some (SpecEngine.new SpecEngine.default_config GOMOKU 15))
                  None 0)
               (SpecEngine.new SpecEngine.default_config GOMOKU 15)
               "out.json" half eq_refl).
    reflexivity.
  - split; [reflexivity|]. intros g Hg. discriminate Hg.
Qed.
End SampleInterfaces.

(* ===================================================================== *)
(** * The engine of the specification: resignation and undo *)
(* ===================================================================== *)

Section BoardDeltas.
Import SpecEngine.

Lemma key_inj p q : key p = key q -> p = q.
Proof. destruct p, q; unfold key; simpl; congruence. Qed.








End BoardDeltas.

Section Groups.
Import SpecEngine.



End Groups.

Section Undo.
Import SpecEngine.


Lemma count_bump k c d : count (bump k c d) c = count k c + d.
Proof. destruct k, c; reflexivity. Qed.



End Undo.

Section UndoLimits.
Import SpecEngine.


(** Neither does a move come back when the mover has no undo left. *)
Lemma undo_refused_without_budget :
  let s := Games.without_undos in
  let s' := Games.after (Place (mkPosition 4 4)) s in
  apply (Place (mkPosition 4 4)) s = Ok s'
  /\ status s' = InProgress
  /\ undo s' = Raise (EngineError UndoExhausted).
Proof. repeat split; vm_compute; reflexivity. Qed.

End UndoLimits.

Section Resignation.
Import SpecEngine.

(** The state [s] closed by the resignation of [color]. *)
Lemma resign_in_progress s color :
  status s = InProgress ->
  resign color s
  = Ok (mk (variant s) (board s) (current_player s) (stones_remaining s)
           (undos_remaining s) (captured s) (Resigned color :: history s)
           (Finished (mkGameResult (Some (opposite color)) resignation))
           (ko s) (passes s) (stone_allotment s) (undo_allotment s)).
Proof. intros Hst. unfold resign, is_finished. rewrite Hst. reflexivity. Qed.

(** C5: on every state in progress and for either colour, [resign color]
    finishes the game at once with the opposite colour as winner and
    resignation as reason, whatever the board holds and whoever is to move
    (board and player to move are left as they are); on a finished game it
    fails with [GameFinished].  The controller's [resign] passes the colour
    it is given to the engine, so the same holds through the controller. *)
Theorem resign_finishes_for_opponent (cfg : Config) (s : SpecEngine.t)
    (color : PlayerColor) :
  (status s = InProgress ->
     exists s',
       resign color s = Ok s'
       /\ status s' = Finished (mkGameResult (Some (opposite color)) resignation)
       /\ get_result s' = Ok (mkGameResult (Some (opposite color)) resignation)
       /\ board s' = board s
       /\ current_player s' = current_player s
       /\ forall c : GameController.t SpecEngine.t,
            GameController.engine c = Some s ->
            @GameController.resign _ (ops cfg) (Some color) c
            = (Ok tt, GameController.set_engine (Some s') c))
  /\ (forall r, status s = Finished r ->
        resign color s = Raise (EngineError GameFinished)
        /\ forall c : GameController.t SpecEngine.t,
             GameController.engine c = Some s ->
             @GameController.resign _ (ops cfg) (Some color) c
             = (Raise (EngineError GameFinished), c)).
Proof.
  split.
  - intros Hst. eexists. split; [apply (resign_in_progress s color Hst)|].
    repeat split.
    intros c Hc. rewrite (@resign_active _ (ops cfg) c s (Some color) Hc).
    unfold GameController.on_engine. rewrite Hc. simpl. unfold atomic.
    rewrite (resign_in_progress s color Hst). reflexivity.
  - intros r Hst.
    assert (Hr : resign color s = Raise (EngineError GameFinished)).
    { unfold resign, is_finished. rewrite Hst. reflexivity. }
    split; [exact Hr|].
    intros c Hc. rewrite (@resign_active _ (ops cfg) c s (Some color) Hc).
    unfold GameController.on_engine. rewrite Hc. simpl. unfold atomic.
    rewrite Hr, (set_engine_same c s Hc). reflexivity.
Qed.

Lemma black_resigns_out_of_turn :
  let s := Games.after (Place (mkPosition 3 4)) Games.before_capture in
  let done := Games.after (Place (mkPosition 7 11)) Games.four_in_a_row in
  status s = InProgress
  /\ current_player s = WHITE
  /\ (exists s',
        resign BLACK s = Ok s'
        /\ get_result s' = Ok (mkGameResult (Some WHITE) resignation)
        /\ board s' = board s)
  /\ status done = Finished (mkGameResult (Some BLACK) five_in_a_row)
  /\ resign WHITE done = Raise (EngineError GameFinished).
Proof.
  assert (Hst : status (Games.after (Place (mkPosition 3 4)) Games.before_capture)
                = InProgress) by (vm_compute; reflexivity).
  assert (Hfin : status (Games.after (Place (mkPosition 7 11)) Games.four_in_a_row)
                 = Finished (mkGameResult (Some BLACK) five_in_a_row))
    by (vm_compute; reflexivity).
  split; [exact Hst|]. split; [vm_compute; reflexivity|]. split.
  - destruct (proj1 (resign_finishes_for_opponent default_config
                       (Games.after (Place (mkPosition 3 4)) Games.before_capture)
                       BLACK) Hst)
      as (s' & Hr & _ & Hres & Hb & _).
    exists s'. auto.
  - split; [exact Hfin|].
    exact (proj1 (proj2 (resign_finishes_for_opponent default_config
                           (Games.after (Place (mkPosition 7 11)) Games.four_in_a_row)
                           WHITE) _ Hfin)).
Defined.
End Resignation.

(* ===================================================================== *)
(** * The engine of the specification on the scenarios of section 8 *)
(* ===================================================================== *)

Section Scenarios.
Import SpecEngine.

(** Black completes five in a row and wins. *)
Example gomoku_five_in_a_row :
  get_result (Games.after (Place (mkPosition 7 11)) Games.four_in_a_row)
  = Ok (mkGameResult (Some BLACK) five_in_a_row).
Proof. vm_compute. reflexivity. Qed.

(** Black takes the last liberty of the white stone at (3, 3). *)
Example go_capture :
  let s := Games.before_capture in
  let s' := Games.after (Place (mkPosition 3 4)) s in
  stones_on_board WHITE s = 3
  /\ stones_on_board WHITE s' = 2
  /\ count (captured s') WHITE = 1
  /\ cell (board s') (mkPosition 3 3) = None.
Proof. repeat split; vm_compute; reflexivity. Qed.

(** A ko: Black captures one stone at (2, 2); White may not retake at once. *)
Example go_ko :
  let s := Games.play_all [(1, 2); (1, 3); (2, 1); (2, 4); (3, 2); (3, 3);
                           (8, 8); (2, 2); (2, 3)]
                          (new default_config GO 9) in
  ko s = Some (mkPosition 2 2)
  /\ play (mkPosition 2 2) s = Raise (EngineError (IllegalMove "ko")).
Proof. split; vm_compute; reflexivity. Qed.

(** A stone placed where it has no liberty and captures nothing. *)
Example go_suicide :
  let s := Games.play_all [(0, 1); (8, 8); (1, 0)] (new default_config GO 9) in
  play (mkPosition 0 0) s = Raise (EngineError (IllegalMove "suicide")).
Proof. vm_compute. reflexivity. Qed.

(** Two passes in a row end a game of Go with a scored result. *)
Example go_two_passes :
  let s := Games.play_all [(4, 4)] (new default_config GO 9) in
  get_result (Games.after Pass (Games.after Pass s))
  = Ok (mkGameResult (Some BLACK) two_consecutive_passes_scored).
Proof. vm_compute. reflexivity. Qed.

(** Gomoku has no pass. *)
Example gomoku_no_pass :
  pass Games.four_in_a_row = Raise (EngineError UnsupportedOperation).
Proof. reflexivity. Qed.
End Scenarios.

Section SaveThenLoad.
#[local] Existing Instance Samples.ops.

(** What [save] wrote for the 9 x 9 Go game, [load] reads back: same game
    type, same board size. *)
Example save_then_load_go_9 :
  let fs := match fst (GameController.save "game.json" ∅ Samples.go_9) with
            | Ok fs => fs
            | Raise _ => ∅
            end in
  let run := GameController.load "game.json" fs Samples.idle in
  fst run = Ok tt
  /\ GameController.game_type (snd run) = Some GO
  /\ GameController.board_size (snd run) = 9.
Proof. repeat split; vm_compute; reflexivity. Qed.

(** A state that is no record has no [get]: the failure is Python's own
    attribute error, raised before anything is assigned. *)
Example load_state_not_a_record :
  let fs : persistence.files :=
    {[ "odd.json" := {[ "game_type" := VStr "go"; "state" := VInt 5 ]} ]} in
  GameController.load "odd.json" fs Samples.go_9
  = (Raise (AttributeError "object has no attribute 'get'"), Samples.go_9).
Proof. vm_compute. reflexivity. Qed.

(** A save that passes the format validations but whose state the engine
    cannot read leaves a fresh engine in place of the running one, the game
    type and board size being those of the old game. *)
Example load_unreadable_state :
  let fs : persistence.files :=
    {[ "half.json" := {[ "game_type" := VStr "gomoku";
                         "state" := VDict {[ "board_size" := VInt 15 ]} ]} ]} in
  let run := GameController.load "half.json" fs Samples.go_9 in
  fst run = Raise (EngineError CorruptSave)
  /\ GameController.engine (snd run)
     = Some (SpecEngine.new SpecEngine.default_config GOMOKU 15)
  /\ GameController.game_type (snd run) = Some GO
  /\ GameController.board_size (snd run) = 9.
Proof. repeat split; vm_compute; reflexivity. Qed.
End SaveThenLoad.

(* ===================================================================== *)
(** * The flood fill has fuel enough *)
(* ===================================================================== *)

Section FloodFill.
Import SpecEngine.

Lemma elem_of_positions b p :
  p ∈ Board.positions b <-> Board.in_bounds b p = true.
Proof.
  unfold Board.positions, Board.in_bounds. rewrite list_elem_of_bind.
  split.
  - intros (r & Hp & Hr). apply list_elem_of_fmap in Hp as (c & -> & Hc).
    apply elem_of_seqZ in Hr, Hc. simpl.
    repeat (apply andb_true_iff; split); lia.
  - intros Hb. repeat (apply andb_true_iff in Hb as [Hb ?]).
    exists (row p). split; [|apply elem_of_seqZ; lia].
    apply list_elem_of_fmap. exists (col p).
    split; [destruct p; reflexivity | apply elem_of_seqZ; lia].
Qed.

Lemma length_bind_const {A B} (f : A -> list B) (m : nat) (l : list A) :
  (forall x, length (f x) = m) -> length (l ≫= f) = (length l * m)%nat.
Proof.
  intros Hf. induction l as [|x l IH]; [reflexivity|].
  rewrite bind_cons, length_app, Hf, IH. simpl. lia.
Qed.

Lemma length_positions b :
  length (Board.positions b)
  = (Z.to_nat (Board.size b) * Z.to_nat (Board.size b))%nat.
Proof.
  unfold Board.positions.
  rewrite (length_bind_const _ (Z.to_nat (Board.size b))).
  - rewrite length_seqZ. reflexivity.
  - intros r. rewrite length_fmap, length_seqZ. reflexivity.
Qed.

Lemma pending_bound b k seen :
  (pending b k seen <= Z.to_nat (Board.size b) * Z.to_nat (Board.size b))%nat.
Proof.
  unfold pending. rewrite <- length_positions. apply length_filter.
Qed.

(** Collecting a cell leaves one cell less to collect. *)
Lemma pending_cons b k (seen : list Position) p :
  matches b k p -> p ∉ seen ->
  (pending b k (p :: seen) < pending b k seen)%nat.
Proof.
  intros [Hb Hk] Hp. unfold pending.
  rewrite (list_filter_iff _ (fun q => q <> p /\ (cell b q = k /\ q ∉ seen))).
  - rewrite <- list_filter_filter. apply (length_filter_lt _ _ p).
    + apply list_elem_of_filter. split; [auto | apply elem_of_positions, Hb].
    + intros Hne. apply Hne. reflexivity.
  - intros q. rewrite not_elem_of_cons. tauto.
Qed.

Lemma step_true b k p (seen : list Position) :
  Board.in_bounds b p && bool_decide (cell b p = k)
  && negb (bool_decide (p ∈ seen)) = true
  <-> matches b k p /\ p ∉ seen.
Proof.
  unfold matches.
  rewrite !andb_true_iff, negb_true_iff, bool_decide_eq_true,
    bool_decide_eq_false.
  tauto.
Qed.

(** With fuel above the work left, the flood fill ends with nothing to do:
    its result holds what was seen, what was waiting, and every matching
    neighbour of a cell it holds. *)
Lemma flood_closed b k : forall fuel todo seen,
  (length todo + 4 * pending b k seen < fuel)%nat ->
  (forall p q, p ∈ seen -> q ∈ neighbours p -> matches b k q ->
               q ∈ seen \/ q ∈ todo) ->
  (forall p, p ∈ seen -> p ∈ flood fuel b k todo seen)
  /\ (forall q, q ∈ todo -> matches b k q -> q ∈ flood fuel b k todo seen)
  /\ (forall p q, p ∈ flood fuel b k todo seen -> q ∈ neighbours p ->
                  matches b k q -> q ∈ flood fuel b k todo seen).
Proof.
  induction fuel as [|fuel IH]; intros todo seen Hfuel Hinv; [lia|].
  destruct todo as [|p rest]; simpl.
  { split; [auto|]. split.
    - intros q Hq. apply elem_of_nil in Hq. contradiction.
    - intros p q Hp Hq Hm. destruct (Hinv p q Hp Hq Hm) as [|Hnil]; [assumption|].
      apply elem_of_nil in Hnil. contradiction. }
  destruct (Board.in_bounds b p && bool_decide (cell b p = k)
            && negb (bool_decide (p ∈ seen))) eqn:Hstep.
  - apply step_true in Hstep as [Hm Hp].
    pose proof (pending_cons b k seen p Hm Hp) as Hless.
    destruct (IH (neighbours p ++ rest) (p :: seen)) as (Hseen & Htodo & Hclosed).
    { rewrite length_app. simpl in *. lia. }
    { intros p' q [->|Hp']%elem_of_cons Hq Hmq.
      - right. apply elem_of_app. left. exact Hq.
      - destruct (Hinv p' q Hp' Hq Hmq) as [Hs|[->|Hr]%elem_of_cons].
        + left. apply elem_of_cons. right. exact Hs.
        + left. apply elem_of_cons. left. reflexivity.
        + right. apply elem_of_app. right. exact Hr. }
    split; [|split; [|exact Hclosed]].
    + intros p' Hp'. apply Hseen, elem_of_cons. right. exact Hp'.
    + intros q [->|Hq]%elem_of_cons Hmq.
      * apply Hseen, elem_of_cons. left. reflexivity.
      * apply Htodo; [apply elem_of_app; right; exact Hq | exact Hmq].
  - assert (Hp : matches b k p -> p ∈ seen).
    { intros Hm. destruct (decide (p ∈ seen)) as [|Hout]; [assumption|].
      assert (Ht : Board.in_bounds b p && bool_decide (cell b p = k)
                   && negb (bool_decide (p ∈ seen)) = true)
        by (apply step_true; auto).
      rewrite Ht in Hstep. discriminate. }
    destruct (IH rest seen) as (Hseen & Htodo & Hclosed).
    { simpl in Hfuel. lia. }
    { intros p' q Hp' Hq Hmq.
      destruct (Hinv p' q Hp' Hq Hmq) as [Hs|[->|Hr]%elem_of_cons]; auto. }
    split; [exact Hseen|]. split; [|exact Hclosed].
    intros q [->|Hq]%elem_of_cons Hmq; auto.
Qed.

Lemma flood_fuel_enough b k :
  (length [()] + 4 * pending b k [] < flood_fuel b)%nat.
Proof.
  pose proof (pending_bound b k []) as Hb. unfold flood_fuel. simpl length.
  destruct (Z.le_gt_cases 0 (Board.size b)) as [Hn|Hn].
  - rewrite Z2Nat.inj_add, !Z2Nat.inj_mul by lia.
    change (Z.to_nat 4) with 4%nat. change (Z.to_nat 2) with 2%nat. lia.
  - replace (Z.to_nat (Board.size b)) with 0%nat in Hb by lia.
    assert (0 < 4 * Board.size b * Board.size b + 2) by nia. lia.
Qed.

(** The region of a cell is its whole connected component: it holds the
    cell it starts from, when that cell matches, and with a cell every
    matching neighbour of it; by [region_sound] it holds nothing else. *)
Theorem region_is_component b k p :
  (matches b k p -> p ∈ region b k p)
  /\ (forall q q', q ∈ region b k p -> q' ∈ neighbours q -> matches b k q' ->
                   q' ∈ region b k p).
Proof.
  destruct (flood_closed b k (flood_fuel b) [p] []) as (_ & Htodo & Hclosed).
  - apply (flood_fuel_enough b k).
  - intros p' q Hp'. apply elem_of_nil in Hp'. contradiction.
  - split; [|exact Hclosed].
    intros Hm. apply Htodo; [apply list_elem_of_singleton; reflexivity | exact Hm].
Qed.
End FloodFill.

(* ===================================================================== *)
(** * Further properties of the controller *)
(* ===================================================================== *)

Section GameIdentity.
Context {E : Type} `{!Engine.Ops E}.
Import GameController.

Lemma keeps_identity_unchanged {A} (m : M (GameController.t E) A) c :
  snd (m c) = c -> keeps_identity m c.
Proof. intros Hm. unfold keeps_identity. rewrite Hm. tauto. Qed.

Lemma on_engine_keeps_identity {A} (m : M E A) c :
  keeps_identity (on_engine m) c.
Proof.
  unfold keeps_identity, on_engine. destruct (engine c) as [e|] eqn:Hc.
  - destruct (m e) as [r e']. simpl. repeat split; eauto.
  - simpl. rewrite ?Hc. tauto.
Qed.

(** A method made of [_require_engine] and then, on the engine found, of a
    computation that keeps the identity of the game. *)
Lemma guarded_keeps_identity {A} (k : E -> M (GameController.t E) A) c :
  (forall e, engine c = Some e -> keeps_identity (k e) c) ->
  keeps_identity (_require_engine ≫= k) c.
Proof.
  intros Hk. destruct (engine c) as [e|] eqn:Hc.
  - unfold keeps_identity. rewrite (after_require k c e Hc). apply Hk. reflexivity.
  - apply keeps_identity_unchanged. rewrite (guarded_by_require k c Hc). reflexivity.
Qed.

Lemma views_unchanged c :
  snd (get_board_display c) = c
  /\ snd (get_resource_snapshot c) = c
  /\ snd (get_status c) = c.
Proof.
  split; [|split].
  - unfold get_board_display. destruct (engine c) as [e|] eqn:Hc.
    + rewrite (after_require _ c e Hc). run_method.
      destruct (mapM _ _); reflexivity.
    + rewrite (guarded_by_require _ c Hc). reflexivity.
  - unfold get_resource_snapshot. destruct (engine c) as [e|] eqn:Hc.
    + rewrite (after_require _ c e Hc). reflexivity.
    + rewrite (guarded_by_require _ c Hc). reflexivity.
  - unfold get_status. destruct (engine c) as [e|] eqn:Hc.
    + rewrite (after_require _ c e Hc).
      unfold mbind at 1, M_bind at 1. unfold get_resource_snapshot.
      rewrite (after_require _ c e Hc). run_method.
      destruct (Engine.is_finished e); [|reflexivity].
      destruct (Engine.get_result e); reflexivity.
    + rewrite (guarded_by_require _ c Hc). reflexivity.
Qed.

(** Whatever the engine does, and whether the call returns or raises, no
    operation on the current game ([place_stone], [pass_turn], [undo],
    [resign], [restart], [save]) changes the controller's game type or board
    size, or installs or removes an engine: only [start_game] and [load]
    do.  The three views ([get_board_display], [get_status],
    [get_resource_snapshot]) leave the controller untouched altogether. *)
Theorem operations_keep_game_identity (c : GameController.t E) :
  (forall row col, keeps_identity (place_stone row col) c)
  /\ keeps_identity pass_turn c
  /\ keeps_identity undo c
  /\ (forall color, keeps_identity (resign color) c)
  /\ keeps_identity restart c
  /\ (forall file_path fs, keeps_identity (save file_path fs) c)
  /\ snd (get_board_display c) = c
  /\ snd (get_status c) = c
  /\ snd (get_resource_snapshot c) = c.
Proof.
  destruct (views_unchanged c) as (Hb & Hr & Hs).
  split; [|split; [|split; [|split; [|split; [|split]]]]].
  - intros row col. apply guarded_keeps_identity. intros e He.
    apply on_engine_keeps_identity.
  - destruct (engine c) as [e|] eqn:He.
    + unfold keeps_identity. rewrite (pass_turn_active c e He).
      destruct (decide (game_type c ≠ Some GO)).
      * simpl. tauto.
      * apply on_engine_keeps_identity.
    + apply keeps_identity_unchanged. unfold pass_turn.
      rewrite (guarded_by_require _ c He). reflexivity.
  - apply guarded_keeps_identity. intros e He. apply on_engine_keeps_identity.
  - intros color. apply guarded_keeps_identity. intros e He.
    apply on_engine_keeps_identity.
  - apply guarded_keeps_identity. intros e He. apply on_engine_keeps_identity.
  - intros file_path fs. apply guarded_keeps_identity. intros e He.
    unfold mbind at 1, M_bind at 1, get at 1.
    pose proof (on_engine_keeps_identity Engine.serialize c) as Hk.
    unfold keeps_identity in *. unfold mbind, M_bind.
    destruct (on_engine Engine.serialize c) as [[state|err] c']; simpl in *;
      exact Hk.
  - auto.
Qed.
End GameIdentity.

Section LoadOutcomes.
Context {E : Type} `{!Engine.Ops E}.
Import GameController.

Lemma GameType_round_trip (g : GameType) :
  GameType_of_value (VStr (GameType_value g)) = Ok g.
Proof. destruct g; reflexivity. Qed.

(** Once a save has passed the validations of [load] (both keys present, a
    known game type, an integer board size in the state), the outcome is
    the engine's.  If the constructor raises, the error is passed on and the
    controller is untouched.  If [deserialize] raises, the error is passed
    on, but the engine just built is already installed in place of the old
    one, under the old game type and board size.  Only if both succeed are
    the game type and the board size replaced too. *)
Theorem load_after_validation file_path fs payload (c : GameController.t E)
    v g m n :
  fs !! file_path = Some payload ->
  payload !! "game_type" = Some v ->
  GameType_of_value v = Ok g ->
  payload !! "state" = Some (VDict m) ->
  m !! "board_size" = Some (VInt n) ->
  load file_path fs c =
    match create_engine g n with
    | Raise err => (Raise err, c)
    | Ok e0 =>
        match Engine.deserialize (VDict m) e0 with
        | (Ok _, e1) => (Ok tt, mk (Some e1) (Some g) n)
        | (Raise err, e1) => (Raise err, mk (Some e1) (game_type c) (board_size c))
        end
    end.
Proof.
  intros Hf Hg Hv Hs Hb. rewrite (load_read _ _ _ _ Hf), Hg, Hs.
  run_method. rewrite Hv, Hb. simpl.
  destruct (create_engine g n) as [e0|err]; [|reflexivity]. simpl.
  unfold on_engine. simpl.
  destruct (Engine.deserialize (VDict m) e0) as [[[]|err] e1]; reflexivity.
Qed.

(** What [save] has written, [load] accepts: if the engine's serialized
    state is a record with an integer board size [n], then after a
    successful [save] of a game of type [g], [load] of the same path, into
    any controller, builds an engine of type [g] and size [n], hands it the
    saved state, and on success holds that engine with game type [g] and
    board size [n]. *)
Theorem save_then_load file_path fs (c c0 : GameController.t E)
    e e' g m n e0 e1 :
  engine c = Some e ->
  game_type c = Some g ->
  Engine.serialize e = (Ok (VDict m), e') ->
  m !! "board_size" = Some (VInt n) ->
  create_engine g n = Ok e0 ->
  Engine.deserialize (VDict m) e0 = (Ok tt, e1) ->
  exists fs',
    save file_path fs c = (Ok fs', set_engine (Some e') c)
    /\ load file_path fs' c0 = (Ok tt, mk (Some e1) (Some g) n).
Proof.
  intros Hc Hg Hser Hb Hnew Hde.
  eexists. split.
  - rewrite (save_active c e file_path fs Hc), Hser, Hg. reflexivity.
  - rewrite (load_read file_path _ _ c0 (lookup_insert_eq _ _ _)).
    set (payload := {[ "game_type" := VStr (GameType_value g);
                       "state" := VDict m ]} : gmap string value).
    assert (Hk : payload !! "game_type" = Some (VStr (GameType_value g)))
      by reflexivity.
    assert (Hs : payload !! "state" = Some (VDict m)) by reflexivity.
    rewrite Hk, Hs. clear Hk Hs payload.
    unfold mbind at 1, M_bind at 1, try_except at 1, lift at 1.
    rewrite (GameType_round_trip g). run_method.
    rewrite Hb. simpl. rewrite Hnew. simpl.
    unfold on_engine. simpl. rewrite Hde. reflexivity.
Qed.
End LoadOutcomes.

Section LoadOutcomesOnSamples.
#[local] Existing Instance Samples.ops.

Lemma load_after_validation_half_save :
  let m : gmap string value := {[ "board_size" := VInt 15 ]} in
  let payload : gmap string value :=
    {[ "game_type" := VStr "gomoku"; "state" := VDict m ]} in
  let fs : persistence.files := {[ "half.json" := payload ]} in
  fs !! "half.json" = Some payload
  /\ GameController.load "half.json" fs Samples.go_9
     = (Raise (EngineError CorruptSave),
        GameController.mk
          (Some (SpecEngine.new SpecEngine.default_config GOMOKU 15))
          (Some GO) 9).
Proof.
  intros m payload fs. split; [reflexivity|].
  rewrite (load_after_validation "half.json" fs payload Samples.go_9
             (VStr "gomoku") GOMOKU m 15 eq_refl eq_refl eq_refl eq_refl eq_refl).
  reflexivity.
Defined.

Lemma save_then_load_go_9_any_controller :
  let e := SpecEngine.new SpecEngine.default_config GO 9 in
  GameController.engine Samples.go_9 = Some e
  /\ exists fs' e1,
       GameController.save "game.json" Samples.disk Samples.go_9
       = (Ok fs', Samples.go_9)
       /\ GameController.load "game.json" fs' Samples.gomoku_15
          = (Ok tt, GameController.mk (Some e1) (Some GO) 9).
Proof.
  split; [reflexivity|].
  pose (e := SpecEngine.new SpecEngine.default_config GO 9).
  pose (st := SpecEngine.serialize e).
  assert (Hst : exists m, st = VDict m /\ m !! "board_size" = Some (VInt 9))
    by (eexists; split; reflexivity).
  destruct Hst as (m & Hm & Hb).
  assert (Hde : exists e1, Engine.deserialize (VDict m) e = (Ok tt, e1)).
  { rewrite <- Hm. vm_compute. eexists. reflexivity. }
  destruct Hde as [e1 Hde].
  destruct (save_then_load "game.json" Samples.disk Samples.go_9
              Samples.gomoku_15 e e GO m 9 e e1)
    as (fs' & Hsave & Hload); try reflexivity; try assumption.
  - simpl. unfold gets. rewrite <- Hm. reflexivity.
  - exists fs', e1. split; [exact Hsave | exact Hload].
Defined.
End LoadOutcomesOnSamples.

Section BoardDisplay.
Context {E : Type} `{!Engine.Ops E}.
Import GameController.

Lemma mapM_total {A B} (f : A -> result B) (g : A -> B) (l : list A) :
  (forall x, x ∈ l -> f x = Ok (g x)) -> mapM f l = Ok (g <$> l).
Proof.
  induction l as [|x l IH]; intros Hf; [reflexivity|].
  simpl. rewrite (Hf x) by (apply elem_of_cons; auto).
  rewrite IH; [reflexivity|].
  intros y Hy. apply Hf, elem_of_cons. auto.
Qed.

Lemma board_row_text (b : Board.t) (r : Z) :
  0 <= r < Board.size b ->
  board_row b r
  = Ok (fmt_2d (r + 1) +:+ " | "
        +:+ String.concat "  "
              ((fun col => cell_token (Board.cells b !! (r, col)))
                 <$> seqZ 0 (Board.size b))).
Proof.
  intros Hr. unfold board_row.
  rewrite (mapM_total _ (fun col => cell_token (Board.cells b !! (r, col)))).
  - reflexivity.
  - intros col Hc%elem_of_seqZ. unfold Board.get, Board.in_bounds. simpl.
    replace ((0 <=? r) && (r <? Board.size b) && (0 <=? col)
             && (col <? Board.size b)) with true; [reflexivity|].
    symmetry. repeat (apply andb_true_iff; split); lia.
Qed.

(** On an active game the text of the board never fails to be produced and
    changes nothing: it is a header line with the column numbers 1 to
    [size], then one line per row, made of the row number counted from 1
    and of one token per column, [.] for an empty cell, [X] for a black
    stone and [O] for a white one, the lines joined by newlines. *)
Theorem board_display_text (c : GameController.t E) (e : E) :
  engine c = Some e ->
  let b := Engine.board e in
  get_board_display c
  = (Ok (String.concat newline
           (("    " +:+ String.concat " " (fmt_2d <$> seqZ 1 (Board.size b)))
            :: ((fun r =>
                   fmt_2d (r + 1) +:+ " | "
                   +:+ String.concat "  "
                         ((fun col => cell_token (Board.cells b !! (r, col)))
                            <$> seqZ 0 (Board.size b)))
                  <$> seqZ 0 (Board.size b)))),
     c).
Proof.
  intros Hc b. unfold get_board_display. rewrite (after_require _ c e Hc).
  run_method. fold b.
  rewrite (mapM_total _ (fun r =>
             fmt_2d (r + 1) +:+ " | "
             +:+ String.concat "  "
                   ((fun col => cell_token (Board.cells b !! (r, col)))
                      <$> seqZ 0 (Board.size b)))).
  - reflexivity.
  - intros r Hr%elem_of_seqZ. apply board_row_text. lia.
Qed.
End BoardDisplay.

Section BoardDisplayOnSamples.
#[local] Existing Instance Samples.ops.

Lemma board_display_of_go_9 :
  let e := SpecEngine.new SpecEngine.default_config GO 9 in
  GameController.engine Samples.go_9 = Some e
  /\ GameController.get_board_display Samples.go_9
     = (Ok (String.concat newline
              (("    " +:+ String.concat " " (fmt_2d <$> seqZ 1 9))
               :: ((fun r =>
                      fmt_2d (r + 1) +:+ " | "
                      +:+ String.concat "  " ((fun _ => ".") <$> seqZ 0 9))
                     <$> seqZ 0 9))),
        Samples.go_9).
Proof.
  split; [reflexivity|].
  rewrite (board_display_text Samples.go_9
             (SpecEngine.new SpecEngine.default_config GO 9) eq_refl).
  vm_compute. reflexivity.
Defined.
End BoardDisplayOnSamples.

(* ===================================================================== *)
(** * Properties of the GUI *)
(* ===================================================================== *)

Section StarPoints.
Import GuiHandlers.

Lemma grid_of_three (a b c : Z) (lo hi : Z) :
  a < b -> b < c -> lo <= a -> c <= hi ->
  let pts := (r ← [a; b; c]; (fun k => (r, k)) <$> [a; b; c]) in
  length pts = 9%nat
  /\ NoDup pts
  /\ (forall r k, (r, k) ∈ pts -> lo <= r <= hi /\ lo <= k <= hi)
  /\ (forall r k, (r, k) ∈ pts -> (k, r) ∈ pts).
Proof.
  intros Hab Hbc Hlo Hhi. cbn.
  split; [reflexivity|]. split; [|split].
  - repeat (apply NoDup_cons; split;
            [rewrite ?elem_of_cons, ?elem_of_nil;
             intros Hin; repeat (destruct Hin as [Hin|Hin]);
             try contradiction; injection Hin; intros; lia|]).
    apply NoDup_nil. constructor.
  - intros r k Hin. rewrite ?elem_of_cons, elem_of_nil in Hin.
    repeat (destruct Hin as [Hin|Hin]); try contradiction;
      injection Hin; intros; subst; lia.
  - intros r k Hin. rewrite ?elem_of_cons, elem_of_nil in Hin.
    rewrite ?elem_of_cons.
    repeat (destruct Hin as [Hin|Hin]); try contradiction;
      injection Hin; intros; subst; tauto.
Qed.

(** A board smaller than 9 has no star point.  Every board of size 9 or
    more has nine of them, all different, each at least 2 lines away from
    every edge (so on the board), placed symmetrically about the diagonal. *)
Theorem star_points_on_board (size : Z) :
  (size < 9 -> _star_points size = [])
  /\ (9 <= size ->
        length (_star_points size) = 9%nat
        /\ NoDup (_star_points size)
        /\ (forall r k, (r, k) ∈ _star_points size ->
                        2 <= r <= size - 3 /\ 2 <= k <= size - 3)
        /\ (forall r k, (r, k) ∈ _star_points size ->
                        (k, r) ∈ _star_points size)).
Proof.
  split.
  - intros Hs. unfold _star_points.
    destruct (Z.ltb_spec size 9); [reflexivity | lia].
  - intros Hs. unfold _star_points.
    destruct (Z.ltb_spec size 9); [lia|].
    destruct (decide (size = 9)) as [->|H9];
      [apply (grid_of_three 2 4 6 2 (9 - 3)); lia|].
    destruct (decide (size = 13)) as [->|H13];
      [apply (grid_of_three 3 6 9 2 (13 - 3)); lia|].
    destruct (decide (size = 19)) as [->|H19];
      [apply (grid_of_three 3 9 15 2 (19 - 3)); lia|].
    assert (2 < size `div` 2 /\ size `div` 2 < size - 3) as [Hlo Hhi].
    { pose proof (Z.div_mod size 2 ltac:(lia)) as Hd.
      pose proof (Z.mod_pos_bound size 2 ltac:(lia)) as Hm. lia. }
    apply (grid_of_three 2 (size `div` 2) (size - 3) 2 (size - 3)); lia.
Qed.

Lemma star_points_of_15 :
  9 <= 15
  /\ _star_points 15
     = [(2, 2); (2, 7); (2, 12); (7, 2); (7, 7); (7, 12);
        (12, 2); (12, 7); (12, 12)]
  /\ NoDup (_star_points 15).
Proof.
  split; [lia|]. split; [reflexivity|].
  apply (proj2 (star_points_on_board 15)). lia.
Defined.
End StarPoints.

Section WindowAndController.
Context {E : Type} `{!Engine.Ops E} {Area : Type}.
Variable layout : Z -> Z -> Z -> result Area.
Implicit Types (g : GuiApp.t E Area).

Lemma kc_bind {A B} (m : M (GuiApp.t E Area) A) (k : A -> M (GuiApp.t E Area) B) :
  keeps_controller m -> (forall a, keeps_controller (k a)) ->
  keeps_controller (m ≫= k).
Proof.
  intros Hm Hk g. unfold mbind, M_bind. specialize (Hm g).
  destruct (m g) as [[a|err] g1]; simpl in *; [|exact Hm].
  rewrite (Hk a g1). exact Hm.
Qed.

Lemma kc_get {B} (k : GuiApp.t E Area -> M (GuiApp.t E Area) B) :
  (forall g0, keeps_controller (k g0)) -> keeps_controller (get ≫= k).
Proof. intros Hk g. unfold mbind, M_bind, get. apply Hk. Qed.

Lemma kc_ret {A} (a : A) : keeps_controller (mret a : M (GuiApp.t E Area) A).
Proof. intros g. reflexivity. Qed.

Lemma kc_lift {A} (r : result A) : keeps_controller (lift r : M (GuiApp.t E Area) A).
Proof. intros g. reflexivity. Qed.

Lemma kc_show d : keeps_controller (GuiApp.show d : M (GuiApp.t E Area) unit).
Proof. intros g. reflexivity. Qed.

Lemma kc_set_board_area a :
  keeps_controller (modify (GuiApp.set_board_area a) : M (GuiApp.t E Area) unit).
Proof. intros g. reflexivity. Qed.

Lemma kc_set_result_notified b :
  keeps_controller (modify (GuiApp.set_result_notified b) : M (GuiApp.t E Area) unit).
Proof. intros g. reflexivity. Qed.

Lemma kc_view {A} (m : M (GameController.t E) A) :
  (forall c, snd (m c) = c) ->
  keeps_controller (GuiApp.on_controller (Area := Area) m).
Proof.
  intros Hm g. unfold GuiApp.on_controller, zoom. specialize (Hm (GuiApp.controller g)).
  destruct (m (GuiApp.controller g)) as [r c']. simpl in *. exact Hm.
Qed.

Lemma kc_notify_game_end : keeps_controller (GuiApp._notify_game_end (Area := Area)).
Proof.
  unfold GuiApp._notify_game_end. apply kc_get. intros g0.
  destruct (GameController.engine (GuiApp.controller g0)) as [e|]; [|apply kc_ret].
  destruct (negb (Engine.is_finished e) || GuiApp._result_notified g0);
    [apply kc_ret|].
  apply kc_bind; [apply kc_lift|]. intros r.
  apply kc_bind; [apply kc_show|]. intros _. apply kc_set_result_notified.
Qed.

(** Redrawing the board reads the controller and never changes it. *)
Lemma kc_refresh_board : keeps_controller (GuiApp._refresh_board layout).
Proof.
  unfold GuiApp._refresh_board. apply kc_get. intros g0. cbv zeta.
  destruct (_ || _); [apply kc_ret|].
  destruct (GameController.engine (GuiApp.controller g0)) as [e|].
  - apply kc_bind; [apply kc_lift|]. intros a.
    apply kc_bind; [apply kc_set_board_area|]. intros _.
    apply kc_bind; [apply kc_lift|]. intros _.
    apply kc_bind; [|intros _; apply kc_notify_game_end].
    apply kc_view. intros c. apply (views_unchanged c).
  - apply kc_bind; [apply kc_set_board_area|]. intros _.
    apply kc_set_result_notified.
Qed.

(** A guarded call of the controller followed by a redraw: it returns
    normally whatever happens, and the controller is left as the call left
    it. *)
Lemma guarded_call {A} (m : M (GameController.t E) A) g :
  let run := GuiApp.guarded (GuiApp.on_controller m;; GuiApp._refresh_board layout) g in
  fst run = Ok tt
  /\ GuiApp.controller (snd run) = snd (m (GuiApp.controller g)).
Proof.
  unfold GuiApp.guarded, try_except, GuiApp._handle_error.
  unfold mbind, M_bind, GuiApp.on_controller, zoom.
  destruct (m (GuiApp.controller g)) as [[a|err] c1]; simpl.
  - pose proof (kc_refresh_board (GuiApp.set_controller c1 g)) as Hr.
    destruct (GuiApp._refresh_board layout (GuiApp.set_controller c1 g))
      as [[[]|err] g2]; simpl in *; auto.
  - auto.
Qed.
End WindowAndController.

Section Buttons.
Context {E : Type} `{!Engine.Ops E} {Area : Type}.
Variable layout : Z -> Z -> Z -> result Area.
Variable inside : Area -> Z * Z -> bool.
Variable locate : Area -> Z * Z -> result (Z * Z).
Implicit Types (g : GuiApp.t E Area).
Import GuiHandlers.

(** A guarded call of the controller followed by steps that keep the
    controller: it returns normally whatever happens, and the controller is
    left as the call left it. *)
Lemma guarded_call_then {A} (m : M (GameController.t E) A)
    (rest : M (GuiApp.t E Area) unit) g :
  keeps_controller rest ->
  let run := GuiApp.guarded (GuiApp.on_controller m;; rest) g in
  fst run = Ok tt
  /\ GuiApp.controller (snd run) = snd (m (GuiApp.controller g)).
Proof.
  intros Hrest. unfold GuiApp.guarded, try_except, GuiApp._handle_error.
  unfold mbind, M_bind, GuiApp.on_controller, zoom.
  destruct (m (GuiApp.controller g)) as [[a|err] c1]; simpl; [|auto].
  pose proof (Hrest (GuiApp.set_controller c1 g)) as Hr.
  destruct (rest (GuiApp.set_controller c1 g)) as [[[]|err] g2]; simpl in *; auto.
Qed.

Lemma kc_reset_and_refresh :
  keeps_controller (modify (GuiApp.set_result_notified false);;
                    GuiApp._refresh_board layout).
Proof.
  apply kc_bind; [apply kc_set_result_notified|]. intros _.
  apply kc_refresh_board.
Qed.

(** Each button of the window calls its one controller operation and
    returns normally, whatever the controller or the redraw raises: after
    "restart", "pass", "undo", "resign" and "load" the controller is exactly
    as [restart], [pass_turn], [undo], [resign()] and [load] left it; a
    cancelled file dialog calls nothing. *)
Theorem buttons_call_the_controller g :
  (fst (_restart_game layout g) = Ok tt
   /\ GuiApp.controller (snd (_restart_game layout g))
      = snd (GameController.restart (GuiApp.controller g)))
  /\ (fst (_pass_turn layout g) = Ok tt
      /\ GuiApp.controller (snd (_pass_turn layout g))
         = snd (GameController.pass_turn (GuiApp.controller g)))
  /\ (fst (_undo_move layout g) = Ok tt
      /\ GuiApp.controller (snd (_undo_move layout g))
         = snd (GameController.undo (GuiApp.controller g)))
  /\ (fst (_resign layout g) = Ok tt
      /\ GuiApp.controller (snd (_resign layout g))
         = snd (GameController.resign None (GuiApp.controller g)))
  /\ (forall chosen fs,
        fst (_load_game layout chosen fs g) = Ok tt
        /\ GuiApp.controller (snd (_load_game layout chosen fs g))
           = if decide (chosen = "") then GuiApp.controller g
             else snd (GameController.load chosen fs (GuiApp.controller g))).
Proof.
  split; [|split; [|split; [|split]]].
  - apply (guarded_call_then GameController.restart), kc_reset_and_refresh.
  - apply (guarded_call_then GameController.pass_turn), kc_refresh_board.
  - apply (guarded_call_then GameController.undo), kc_refresh_board.
  - apply (guarded_call_then (GameController.resign None)), kc_refresh_board.
  - intros chosen fs. unfold _load_game.
    destruct (decide (chosen = "")); [split; reflexivity|].
    apply (guarded_call_then (GameController.load chosen fs)), kc_reset_and_refresh.
Qed.

(** Before a game is started or loaded nothing the user does in the window
    reaches an engine: "restart", "pass", "undo" and "resign" each show the
    missing-game error, "save" and a click on the canvas each show a hint,
    and in all six cases the window is otherwise unchanged and no file is
    written. *)
Theorem window_without_game g :
  GameController.engine (GuiApp.controller g) = None ->
  let refused :=
    (Ok tt, snd (GuiApp.show (GuiApp.showerror
                                (ValueError GameController.no_game_msg)) g)) in
  _restart_game layout g = refused
  /\ _pass_turn layout g = refused
  /\ _undo_move layout g = refused
  /\ _resign layout g = refused
  /\ (forall chosen fs,
        _save_game chosen fs g
        = (Ok fs, snd (GuiApp.show
                         (GuiApp.showinfo "提示" "请先开始对局，再执行保存。") g)))
  /\ (forall event,
        GuiApp._on_canvas_click layout inside locate event g
        = (Ok tt, snd (GuiApp.show
                         (GuiApp.showinfo "提示" "请先开始对局，再在棋盘落子。") g))).
Proof.
  intros Hc refused.
  assert (Hstop : forall (k : E -> M (GameController.t E) unit)
                         (rest : M (GuiApp.t E Area) unit),
             GuiApp.guarded
               (GuiApp.on_controller (GameController._require_engine ≫= k);; rest) g
             = refused).
  { intros k rest. unfold GuiApp.guarded, try_except, GuiApp._handle_error.
    unfold mbind at 1, M_bind at 1, GuiApp.on_controller, zoom.
    rewrite (guarded_by_require k _ Hc). simpl.
    destruct g; simpl in *. reflexivity. }
  split; [apply Hstop|]. split; [apply Hstop|]. split; [apply Hstop|].
  split; [apply Hstop|]. split.
  - intros chosen fs. unfold _save_game. run_method. rewrite Hc. reflexivity.
  - intros event. unfold GuiApp._on_canvas_click. run_method. rewrite Hc.
    reflexivity.
Qed.

(** A click whose computed row and column are on the board places a stone
    at exactly that row and column: the controller is left as
    [place_stone row col] left it, and the handler returns normally whether
    the engine accepts the move or raises. *)
Theorem click_places_at_intersection g event area row col e :
  GameController.engine (GuiApp.controller g) = Some e ->
  GuiApp._board_area g = Some area ->
  inside area event = true ->
  locate area event = Ok (row, col) ->
  0 <= row < GameController.board_size (GuiApp.controller g) ->
  0 <= col < GameController.board_size (GuiApp.controller g) ->
  let run := GuiApp._on_canvas_click layout inside locate event g in
  fst run = Ok tt
  /\ GuiApp.controller (snd run)
     = snd (GameController.place_stone row col (GuiApp.controller g)).
Proof.
  intros He Ha Hi Hl Hr Hk.
  assert (Hrun : GuiApp._on_canvas_click layout inside locate event g
                 = GuiApp.guarded
                     (GuiApp.on_controller (GameController.place_stone row col);;
                      GuiApp._refresh_board layout) g).
  { unfold GuiApp._on_canvas_click.
    unfold mbind at 1, M_bind at 1, get at 1. rewrite He, Ha, Hi.
    cbv zeta. unfold mbind at 1, M_bind at 1, lift at 1. rewrite Hl. simpl.
    replace ((0 <=? col) && (col <? GameController.board_size (GuiApp.controller g))
             && (0 <=? row) && (row <? GameController.board_size (GuiApp.controller g)))
      with true; [reflexivity|].
    symmetry. repeat (apply andb_true_iff; split); lia. }
  cbv zeta. rewrite Hrun.
  apply (guarded_call_then (GameController.place_stone row col)), kc_refresh_board.
Qed.

(** Resizing the window never changes the game behind it, whatever the
    redraw does; and an event that reports the size the canvas already has
    changes nothing at all and redraws nothing. *)
Theorem resize_keeps_the_game width height g :
  GuiApp.controller (snd (_handle_canvas_resize layout width height g))
  = GuiApp.controller g
  /\ (width = GuiApp._canvas_width g -> height = GuiApp._canvas_height g ->
        _handle_canvas_resize layout width height g = (Ok tt, g)).
Proof.
  split.
  - revert g. change (keeps_controller (_handle_canvas_resize layout width height)).
    unfold _handle_canvas_resize. apply kc_get. intros g0.
    destruct ((width =? GuiApp._canvas_width g0)
              && (height =? GuiApp._canvas_height g0)).
    + apply kc_ret.
    + apply kc_bind; [|intros []; apply kc_refresh_board].
      intros g. reflexivity.
  - intros -> ->. unfold _handle_canvas_resize, mbind, M_bind, get.
    rewrite !Z.eqb_refl. reflexivity.
Qed.
End Buttons.

Section PanelAndPassButton.
Context {E : Type} `{!Engine.Ops E} {Area : Type}.
Implicit Types (g : GuiApp.t E Area).
Import GuiHandlers.

(** The pass button mirrors the controller's own guard: it is enabled
    exactly when [pass_turn] would reach the engine, and disabled exactly
    when [pass_turn] would raise one of the controller's two errors (no
    game, or a game that is not Go) without touching anything. *)
Theorem pass_button_mirrors_pass_turn g :
  let c := GuiApp.controller g in
  (_update_pass_button_state g = true ->
     exists e, GameController.engine c = Some e
               /\ GameController.pass_turn c
                  = GameController.on_engine Engine.pass_turn c)
  /\ (_update_pass_button_state g = false ->
        exists msg, GameController.pass_turn c = (Raise (ValueError msg), c)).
Proof.
  intros c. unfold _update_pass_button_state. fold c.
  destruct (GameController.engine c) as [e|] eqn:He.
  - rewrite (pass_turn_active c e He).
    destruct (decide (GameController.game_type c ≠ Some GO)); split;
      intros Hb; try discriminate; eauto.
  - split; [discriminate|]. intros _. eexists.
    unfold GameController.pass_turn. apply guarded_by_require. exact He.
Qed.

(** The status line of the console and the information panel of the window
    say the same: on an active game the four lines of the panel (game,
    player to move, black's and white's resources), joined by [" | "], are
    the status text of a game in progress, and the beginning of the status
    text of a finished game, which adds the result and its reason. *)
Theorem panel_agrees_with_status g e :
  GameController.engine (GuiApp.controller g) = Some e ->
  exists info,
    _update_info_panel g = Ok info
    /\ (Engine.is_finished e = false ->
          GameController.get_status (GuiApp.controller g)
          = (Ok (String.concat " | "
                   [info_game info; info_turn info; info_black info;
                    info_white info]),
             GuiApp.controller g))
    /\ (forall r, Engine.is_finished e = true -> Engine.get_result e = Ok r ->
          GameController.get_status (GuiApp.controller g)
          = (Ok (String.concat " | "
                   ([info_game info; info_turn info; info_black info;
                     info_white info]
                    ++ [ match winner r with
                         | None => "结果: 平局"
                         | Some w => "胜者: " +:+ GameController._color_label w
                         end;
                         "结束原因: " +:+ GameController.reason_text (reason r) ])),
             GuiApp.controller g)).
Proof.
  intros He. set (c := GuiApp.controller g) in *.
  assert (Hsnap : GameController.get_resource_snapshot c
                  = (Ok (fun color =>
                           GameController.mkResources
                             (Engine.stones_on_board color e)
                             (Engine.stones_remaining color e)
                             (Engine.undo_remaining color e)), c)).
  { unfold GameController.get_resource_snapshot.
    rewrite (after_require _ c e He). reflexivity. }
  eexists. split.
  { unfold _update_info_panel. fold c. rewrite He, Hsnap. reflexivity. }
  assert (Hstatus : GameController.get_status c
            = (snapshot ← GameController.get_resource_snapshot;
               c0 ← get;
               let status_parts :=
                 [ "游戏: " +:+ GameController._game_type_label c0 +:+ " "
                     +:+ pretty (GameController.board_size c0)
                     +:+ "x" +:+ pretty (GameController.board_size c0);
                   "当前行棋方: "
                     +:+ GameController._color_label (Engine.current_player e);
                   GameController._format_resource_line BLACK snapshot;
                   GameController._format_resource_line WHITE snapshot ] in
               if Engine.is_finished e then
                 result ← lift (Engine.get_result e);
                 mret (String.concat " | "
                         (status_parts ++
                          [ match winner result with
                            | None => "结果: 平局"
                            | Some w => "胜者: " +:+ GameController._color_label w
                            end;
                            "结束原因: "
                              +:+ GameController.reason_text (reason result) ]))
               else mret (String.concat " | " status_parts)) c).
  { unfold GameController.get_status. rewrite (after_require _ c e He).
    reflexivity. }
  rewrite Hstatus. unfold mbind, M_bind, get, lift. rewrite Hsnap. cbv zeta.
  split.
  - intros Hfin. rewrite Hfin.
    unfold GameController._game_type_label, GameController._color_label,
      GameController._format_resource_line.
    destruct (GameController.game_type c) as [[]|]; reflexivity.
  - intros r Hfin Hres. rewrite Hfin, Hres.
    unfold GameController._game_type_label, GameController._color_label,
      GameController._format_resource_line.
    destruct (GameController.game_type c) as [[]|]; reflexivity.
Qed.
End PanelAndPassButton.

Section StartButton.
Context {E : Type} `{!Engine.Ops E} {Area : Type}.
Variable layout : Z -> Z -> Z -> result Area.
Implicit Types (g : GuiApp.t E Area).

Lemma guarded_ext (m m' : M (GuiApp.t E Area) unit) g :
  m g = m' g -> GuiApp.guarded m g = GuiApp.guarded m' g.
Proof. intros Hm. unfold GuiApp.guarded, try_except. rewrite Hm. reflexivity. Qed.

Lemma read_board_size_ok g n :
  py_int (GuiApp.board_size_var g) = Some n -> 8 <= n <= 19 ->
  GuiApp._read_board_size g = (Ok n, g).
Proof.
  intros Hn Hr. unfold GuiApp._read_board_size. run_method. rewrite Hn.
  destruct (Z.ltb_spec n 8); [lia|]. destruct (Z.ltb_spec 19 n); [lia|].
  reflexivity.
Qed.

(** The start button starts a game exactly when the size entry, a plain
    text, reads as an integer from 8 to 19 (and the selected game type is
    known): the controller is then left as [start_game] with the selected
    type and that size left it, and the handler returns normally.  When the
    entry does not read as an integer, the controller is not called and one
    error dialog is shown. *)
Theorem start_button_starts_game g gt :
  plain_text (GuiApp.board_size_var g) = true ->
  game_type_from_string (GuiApp.game_type_options (GuiApp.game_type_var g)) = Ok gt ->
  (forall n, py_int (GuiApp.board_size_var g) = Some n -> 8 <= n <= 19 ->
     fst (GuiApp._start_game layout g) = Ok tt
     /\ GuiApp.controller (snd (GuiApp._start_game layout g))
        = snd (GameController.start_game gt n (GuiApp.controller g)))
  /\ (py_int (GuiApp.board_size_var g) = None ->
        GuiApp._start_game layout g
        = (Ok tt, snd (GuiApp.show
                         (GuiApp.showerror (ValueError "棋盘大小必须是整数")) g))).
Proof.
  intros _ Hgt. split.
  - intros n Hn Hr. unfold GuiApp._start_game.
    rewrite (guarded_ext _
               (GuiApp.on_controller (GameController.start_game gt n);;
                (modify (GuiApp.set_result_notified false);;
                 GuiApp._refresh_board layout)) g).
    + apply (guarded_call_then (GameController.start_game gt n)),
        kc_reset_and_refresh.
    + unfold mbind at 1, M_bind at 1, get at 1. cbv zeta.
      unfold mbind at 1, M_bind at 1, lift at 1. rewrite Hgt.
      unfold mbind at 1, M_bind at 1. rewrite (read_board_size_ok g n Hn Hr).
      reflexivity.
  - intros Hn. unfold GuiApp._start_game, GuiApp.guarded, GuiApp._read_board_size,
      GuiApp._handle_error.
    run_method. rewrite Hgt, Hn. reflexivity.
Qed.
End StartButton.

(** The statements on the window at concrete windows. *)
Section SampleWindows.
#[local] Existing Instance Samples.ops.
Import GuiHandlers.

Lemma fresh_window_without_game :
  GameController.engine (GuiApp.controller WindowSamples.fresh_window) = None
  /\ _pass_turn ExactGeometry.layout WindowSamples.fresh_window
     = (Ok tt, snd (GuiApp.show
                      (GuiApp.showerror (ValueError GameController.no_game_msg))
                      WindowSamples.fresh_window))
  /\ _save_game "game.json" ∅ WindowSamples.fresh_window
     = (Ok ∅, snd (GuiApp.show
                     (GuiApp.showinfo "提示" "请先开始对局，再执行保存。")
                     WindowSamples.fresh_window)).
Proof.
  split; [reflexivity|].
  destruct (window_without_game ExactGeometry.layout ExactGeometry.inside
              ExactGeometry.locate WindowSamples.fresh_window eq_refl)
    as (_ & Hpass & _ & _ & Hsave & _).
  split; [exact Hpass | apply Hsave].
Defined.

Lemma click_on_go_9_at_3_4 :
  let g := WindowSamples.window_go_9 in
  let run := GuiApp._on_canvas_click ExactGeometry.layout ExactGeometry.inside
               ExactGeometry.locate (300, 240) g in
  ExactGeometry.locate (ExactGeometry.mk 60 60 540 540 60) (300, 240) = Ok (3, 4)
  /\ fst run = Ok tt
  /\ GuiApp.controller (snd run)
     = snd (GameController.place_stone 3 4 (GuiApp.controller g)).
Proof.
  split; [vm_compute; reflexivity|].
  eapply (click_places_at_intersection ExactGeometry.layout ExactGeometry.inside
            ExactGeometry.locate WindowSamples.window_go_9 (300, 240) _ 3 4).
  - reflexivity.
  - reflexivity.
  - reflexivity.
  - vm_compute. reflexivity.
  - split; vm_compute; [discriminate | reflexivity].
  - split; vm_compute; [discriminate | reflexivity].
Defined.

Lemma panel_of_go_9 :
  let g := WindowSamples.window_go_9 in
  let e := SpecEngine.new SpecEngine.default_config GO 9 in
  GameController.engine (GuiApp.controller g) = Some e
  /\ Engine.is_finished e = false
  /\ exists info,
       _update_info_panel g = Ok info
       /\ info_game info = "游戏: 围棋 9x9"
       /\ GameController.get_status (GuiApp.controller g)
          = (Ok (String.concat " | "
                   [info_game info; info_turn info; info_black info;
                    info_white info]),
             GuiApp.controller g).
Proof.
  split; [reflexivity|]. split; [reflexivity|].
  destruct (panel_agrees_with_status WindowSamples.window_go_9
              (SpecEngine.new SpecEngine.default_config GO 9) eq_refl)
    as (info & Hinfo & Hrun & _).
  exists info. split; [exact Hinfo|]. split; [|apply Hrun; reflexivity].
  vm_compute in Hinfo. injection Hinfo as <-. reflexivity.
Defined.

Lemma start_button_on_fresh_window :
  let g := WindowSamples.fresh_window in
  plain_text (GuiApp.board_size_var g) = true
  /\ game_type_from_string (GuiApp.game_type_options (GuiApp.game_type_var g))
    = Ok GOMOKU
  /\ py_int (GuiApp.board_size_var g) = Some 15
  /\ fst (GuiApp._start_game ExactGeometry.layout g) = Ok tt
  /\ GuiApp.controller (snd (GuiApp._start_game ExactGeometry.layout g))
     = Samples.gomoku_15.
Proof.
  split; [reflexivity|]. split; [reflexivity|]. split; [reflexivity|].
  apply (proj1 (start_button_starts_game ExactGeometry.layout
                  WindowSamples.fresh_window GOMOKU eq_refl eq_refl) 15);
    [reflexivity | lia].
Defined.

Lemma resize_of_go_9_to_same_size :
  let g := WindowSamples.window_go_9 in
  600 = GuiApp._canvas_width g
  /\ 600 = GuiApp._canvas_height g
  /\ _handle_canvas_resize ExactGeometry.layout 600 600 g = (Ok tt, g).
Proof.
  split; [reflexivity|]. split; [reflexivity|].
  apply (proj2 (resize_keeps_the_game ExactGeometry.layout 600 600
                  WindowSamples.window_go_9)); reflexivity.
Defined.
End SampleWindows.

(* ===================================================================== *)
(** * Properties of the console *)
(* ===================================================================== *)

Section ConsoleFrames.
Context {E : Type} `{!Engine.Ops E} {X : Type}.
Variable proj : ConsoleClient.t E -> X.
Import ConsoleClient.

Lemma pres_bind {A B} (m : M (ConsoleClient.t E) A)
    (k : A -> M (ConsoleClient.t E) B) :
  preserves proj m -> (forall a, preserves proj (k a)) ->
  preserves proj (m ≫= k).
Proof.
  intros Hm Hk s. unfold mbind, M_bind. specialize (Hm s).
  destruct (m s) as [[a|err] s1]; simpl in *; [|exact Hm].
  rewrite (Hk a s1). exact Hm.
Qed.

Lemma pres_get {B} (k : ConsoleClient.t E -> M (ConsoleClient.t E) B) :
  (forall s0, preserves proj (k s0)) -> preserves proj (get ≫= k).
Proof. intros Hk s. unfold mbind, M_bind, get. apply Hk. Qed.

Lemma pres_ret {A} (a : A) : preserves proj (mret a).
Proof. intros s. reflexivity. Qed.

Lemma pres_raise {A} err : preserves proj (raise err : M (ConsoleClient.t E) A).
Proof. intros s. reflexivity. Qed.

Lemma pres_lift {A} (r : result A) : preserves proj (lift r).
Proof. intros s. reflexivity. Qed.

Lemma pres_print line : ignores_output proj -> preserves proj (print line).
Proof. intros Ho s. destruct s. apply Ho. Qed.

Lemma pres_on_controller {A} (m : M (GameController.t E) A) :
  ignores_controller proj -> preserves proj (on_controller m).
Proof.
  intros Hc s. unfold on_controller, zoom.
  destruct (m (controller s)) as [r c']. destruct s. apply Hc.
Qed.

Lemma pres_view {A} (m : M (GameController.t E) A) :
  (forall c, snd (m c) = c) -> preserves proj (on_controller m).
Proof.
  intros Hm s. unfold on_controller, zoom. specialize (Hm (controller s)).
  destruct (m (controller s)) as [r c']. simpl in *. subst c'.
  destruct s. reflexivity.
Qed.

Lemma pres_cmd_board args : ignores_output proj -> preserves proj (_cmd_board args).
Proof.
  intros Ho. unfold _cmd_board.
  apply pres_bind; [|intros; apply pres_print, Ho].
  apply pres_view. intros c. apply (views_unchanged c).
Qed.

Lemma pres_cmd_status args : ignores_output proj -> preserves proj (_cmd_status args).
Proof.
  intros Ho. unfold _cmd_status.
  apply pres_bind; [|intros; apply pres_print, Ho].
  apply pres_view. intros c. apply (views_unchanged c).
Qed.

Lemma pres_cmd_start args :
  ignores_output proj -> ignores_controller proj -> preserves proj (_cmd_start args).
Proof.
  intros Ho Hc. unfold _cmd_start.
  destruct args as [|kind [|size [|? ?]]]; try apply pres_raise.
  apply pres_bind; [apply pres_lift|]. intros g.
  apply pres_bind; [destruct (py_int size); [apply pres_ret | apply pres_raise]|].
  intros n. destruct (_ || _); [apply pres_raise|].
  apply pres_bind; [apply pres_on_controller, Hc|]. intros _.
  apply pres_bind; [apply pres_print, Ho|]. intros _.
  apply pres_cmd_board, Ho.
Qed.

Lemma pres_parse_coordinate v : preserves proj (_parse_coordinate v).
Proof.
  unfold _parse_coordinate. destruct (py_int v) as [n|]; [|apply pres_raise].
  destruct (n <=? 0); [apply pres_raise | apply pres_ret].
Qed.

Lemma pres_cmd_move args :
  ignores_output proj -> ignores_controller proj -> preserves proj (_cmd_move args).
Proof.
  intros Ho Hc. unfold _cmd_move.
  destruct args as [|r [|c [|? ?]]]; try apply pres_raise.
  apply pres_bind; [apply pres_parse_coordinate|]. intros row.
  apply pres_bind; [apply pres_parse_coordinate|]. intros col.
  apply pres_bind; [apply pres_on_controller, Hc|]. intros _.
  apply pres_cmd_board, Ho.
Qed.

Lemma pres_cmd_pass args :
  ignores_output proj -> ignores_controller proj -> preserves proj (_cmd_pass args).
Proof.
  intros Ho Hc. unfold _cmd_pass.
  apply pres_bind; [apply pres_on_controller, Hc|]. intros _. apply pres_print, Ho.
Qed.

Lemma pres_cmd_undo args :
  ignores_output proj -> ignores_controller proj -> preserves proj (_cmd_undo args).
Proof.
  intros Ho Hc. unfold _cmd_undo.
  apply pres_bind; [apply pres_on_controller, Hc|]. intros _. apply pres_print, Ho.
Qed.

Lemma pres_cmd_resign args :
  ignores_output proj -> ignores_controller proj -> preserves proj (_cmd_resign args).
Proof.
  intros Ho Hc. unfold _cmd_resign.
  apply pres_bind; [apply pres_on_controller, Hc|]. intros _.
  apply pres_get. intros s0.
  apply pres_bind; [|intros; apply pres_print, Ho].
  destruct (GameController.engine (controller s0)); [apply pres_lift | apply pres_raise].
Qed.

Lemma pres_cmd_restart args :
  ignores_output proj -> ignores_controller proj -> preserves proj (_cmd_restart args).
Proof.
  intros Ho Hc. unfold _cmd_restart.
  apply pres_bind; [apply pres_on_controller, Hc|]. intros _.
  apply pres_bind; [apply pres_print, Ho|]. intros _.
  apply pres_cmd_board, Ho.
Qed.

Lemma pres_cmd_load args :
  ignores_output proj -> ignores_controller proj -> preserves proj (_cmd_load args).
Proof.
  intros Ho Hc. unfold _cmd_load.
  destruct args as [|path [|? ?]]; try apply pres_raise.
  apply pres_get. intros s0.
  apply pres_bind; [apply pres_on_controller, Hc|]. intros _.
  apply pres_bind; [apply pres_print, Ho|]. intros _.
  apply pres_cmd_board, Ho.
Qed.

Lemma pres_cmd_save args :
  ignores_output proj -> ignores_controller proj -> ignores_files proj ->
  preserves proj (_cmd_save args).
Proof.
  intros Ho Hc Hf. unfold _cmd_save.
  destruct args as [|path [|? ?]]; try apply pres_raise.
  apply pres_get. intros s0.
  apply pres_bind; [apply pres_on_controller, Hc|]. intros fs.
  apply pres_bind; [|intros; apply pres_print, Ho].
  intros s. destruct s. apply Hf.
Qed.

Lemma pres_cmd_hint args :
  ignores_output proj -> ignores_prompts proj -> preserves proj (_cmd_hint args).
Proof.
  intros Ho Hp. unfold _cmd_hint.
  apply pres_bind; [intros s; destruct s; apply Hp|]. intros _.
  apply pres_get. intros s0. apply pres_print, Ho.
Qed.
End ConsoleFrames.

Section ConsoleStep.
Context {E : Type} `{!Engine.Ops E}.
Variable gui_launcher : option (M (GameController.t E * persistence.files) unit).
Variable describe : exn -> string.
Import ConsoleClient ConsoleLoop.

#[local] Abbreviation commands := (ConsoleLoop.commands gui_launcher).
#[local] Abbreviation step := (ConsoleLoop.step gui_launcher describe).
#[local] Abbreviation loop := (ConsoleLoop.loop gui_launcher describe).

Lemma names_of_commands : name <$> commands = command_names.
Proof. reflexivity. Qed.

Lemma lookup_command_some w cmd :
  lookup_command gui_launcher w = Some cmd -> cmd ∈ commands /\ name cmd = w.
Proof.
  unfold lookup_command. intros Hfind. apply find_some in Hfind as [Hin Hname].
  split; [apply list_elem_of_In, Hin | apply bool_decide_eq_true in Hname; exact Hname].
Qed.

Lemma lookup_command_none w :
  w ∉ command_names -> lookup_command gui_launcher w = None.
Proof.
  intros Hw. destruct (lookup_command gui_launcher w) as [cmd|] eqn:Hl; [|reflexivity].
  apply lookup_command_some in Hl as [Hin <-]. destruct Hw.
  rewrite <- names_of_commands. apply list_elem_of_fmap. eauto.
Qed.

Lemma blank_split_from raw : blank raw = true -> split_from raw "" = [].
Proof.
  induction raw as [|a raw IH]; simpl; [reflexivity|].
  intros [Ha Hr]%andb_true_iff. rewrite Ha. simpl. auto.
Qed.

(** A line of white space is ignored.  A line of plain text whose first
    word, letter case aside, is none of the fourteen command names prints
    the unknown-command message and does nothing else, whatever follows the
    word. *)
Theorem blank_and_unknown_lines raw (s : ConsoleClient.t E) :
  (blank raw = true -> step raw s = (None, s))
  /\ (plain_text raw = true ->
      forall w, command_word raw = Some w -> w ∉ command_names ->
        step raw s
        = (None, say "Unknown command. Type 'help' for a list of commands." s)).
Proof.
  split.
  - intros Hb. unfold ConsoleLoop.step, split. rewrite (blank_split_from raw Hb).
    reflexivity.
  - intros _ w Hw Hnot. unfold command_word in Hw. unfold ConsoleLoop.step.
    destruct (split raw) as [|first args]; [discriminate|].
    simpl in Hw. injection Hw as <-.
    rewrite (lookup_command_none _ Hnot). reflexivity.
Qed.

Lemma method_frame {X} (proj : ConsoleClient.t E -> X)
    (m : list string -> M (ConsoleClient.t E) unit) args s :
  preserves proj (m args) -> proj (snd (method m args s)) = proj s.
Proof.
  intros Hm. unfold method. specialize (Hm s).
  destruct (m args s) as [[[]|err] s']; exact Hm.
Qed.

Lemma pres_cmd_help {X} (proj : ConsoleClient.t E -> X) args :
  ignores_output proj -> preserves proj (_cmd_help args).
Proof.
  intros Ho. unfold _cmd_help.
  apply pres_bind; [apply pres_print, Ho|]. intros _.
  induction help_lines as [|line rest IH]; simpl; [apply pres_ret|].
  apply pres_bind; [apply pres_print, Ho | intros _; exact IH].
Qed.

Lemma pres_cmd_gui {X} (proj : ConsoleClient.t E -> X) args :
  ignores_output proj -> ignores_controller proj -> ignores_files proj ->
  preserves proj (_cmd_gui gui_launcher args).
Proof.
  intros Ho Hc Hf. unfold _cmd_gui.
  destruct gui_launcher as [launcher|]; [|apply pres_print, Ho].
  intros s. unfold zoom. destruct (launcher _) as [res [c' f']].
  destruct s as [c r p out f]. unfold set_files, set_controller. simpl.
  rewrite (Hf c' r p out f' f). apply Hc.
Qed.

(** What a line leaves alone follows from what the handlers of the table
    leave alone: [excluded] names the commands that may touch [proj]. *)
Lemma step_frame {X} (proj : ConsoleClient.t E -> X) (excluded : list string) :
  ignores_output proj ->
  (forall cmd, cmd ∈ commands -> name cmd ∉ excluded ->
     forall args s, proj (snd (handler cmd args s)) = proj s) ->
  forall raw s,
    (forall w, command_word raw = Some w -> w ∉ excluded) ->
    proj (snd (step raw s)) = proj s.
Proof.
  intros Ho Hcmds raw s Hw. unfold ConsoleLoop.step, command_word in *.
  destruct (split raw) as [|first args]; [reflexivity|].
  specialize (Hw (lower first) eq_refl).
  destruct (lookup_command gui_launcher (lower first)) as [cmd|] eqn:Hl.
  - apply lookup_command_some in Hl as [Hin Hname].
    rewrite <- Hname in Hw. specialize (Hcmds cmd Hin Hw args s).
    assert (Hsay : forall line s', proj (say line s') = proj s').
    { intros line s'. apply (pres_print proj line Ho). }
    destruct (handler cmd args s) as [[|err|code] s']; simpl in *;
      [exact Hcmds| |exact Hcmds].
    destruct err; simpl; rewrite Hsay; exact Hcmds.
  - simpl. apply (pres_print proj _ Ho).
Qed.

Lemma step_returns raw s :
  command_word raw <> Some "exit" -> fst (step raw s) = None.
Proof.
  intros Hw. unfold ConsoleLoop.step, command_word in *.
  destruct (split raw) as [|first args]; [reflexivity|]. simpl in Hw.
  destruct (lookup_command gui_launcher (lower first)) as [cmd|] eqn:Hl;
    [|reflexivity].
  apply lookup_command_some in Hl as [Hin Hname].
  assert (Hne : name cmd <> "exit") by congruence.
  unfold ConsoleLoop.commands, other_commands in Hin.
  rewrite elem_of_app, !elem_of_cons, !elem_of_nil in Hin.
  repeat (destruct Hin as [Hin|Hin]); try contradiction; subst cmd; simpl in *;
    try congruence;
    match goal with
    | |- context [method ?m args s] =>
        unfold method; destruct (m args s) as [[[]|[]] ?]; reflexivity
    end.
Qed.
End ConsoleStep.

Section ConsoleCommands.
Context {E : Type} `{!Engine.Ops E}.
Variable gui_launcher : option (M (GameController.t E * persistence.files) unit).
Variable describe : exn -> string.
Import ConsoleClient ConsoleLoop.

#[local] Abbreviation commands := (ConsoleLoop.commands gui_launcher).
#[local] Abbreviation step := (ConsoleLoop.step gui_launcher describe).
#[local] Abbreviation loop := (ConsoleLoop.loop gui_launcher describe).

Ltac table_cases Hin :=
  unfold ConsoleLoop.commands, other_commands in Hin;
  rewrite elem_of_app, !elem_of_cons, !elem_of_nil in Hin;
  repeat (destruct Hin as [Hin|Hin]); try contradiction; subst.

Ltac named_excluded :=
  exfalso;
  match goal with
  | Hn : _ ∉ _ |- _ => apply Hn; cbn [name]; solve [repeat constructor]
  end.

Ltac handler_keeps proj :=
  cbn [handler];
  lazymatch goal with
  | |- _ (snd (method _ _ _)) = _ =>
      apply (method_frame proj);
      lazymatch goal with
      | |- preserves _ (_cmd_start _) => apply pres_cmd_start
      | |- preserves _ (_cmd_move _) => apply pres_cmd_move
      | |- preserves _ (_cmd_pass _) => apply pres_cmd_pass
      | |- preserves _ (_cmd_undo _) => apply pres_cmd_undo
      | |- preserves _ (_cmd_resign _) => apply pres_cmd_resign
      | |- preserves _ (_cmd_restart _) => apply pres_cmd_restart
      | |- preserves _ (_cmd_save _) => apply pres_cmd_save
      | |- preserves _ (_cmd_load _) => apply pres_cmd_load
      | |- preserves _ (_cmd_board _) => apply pres_cmd_board
      | |- preserves _ (_cmd_status _) => apply pres_cmd_status
      | |- preserves _ (_cmd_hint _) => apply pres_cmd_hint
      | |- preserves _ (_cmd_help _) => apply pres_cmd_help
      | |- preserves _ (_cmd_gui _ _) => apply pres_cmd_gui
      end;
      repeat intro; reflexivity
  | |- _ (snd (_cmd_exit _ _)) = _ =>
      match goal with s : ConsoleClient.t E |- _ => destruct s; reflexivity end
  end.

Lemma only_exit_stops cmd :
  cmd ∈ commands -> name cmd ∉ ["exit"] ->
  forall args s, running (snd (handler cmd args s)) = running s.
Proof.
  intros Hin Hn args s. table_cases Hin; first [named_excluded | handler_keeps (@running E)].
Qed.

Lemma only_save_and_gui_write cmd :
  cmd ∈ commands -> name cmd ∉ ["save"; "gui"] ->
  forall args s, files (snd (handler cmd args s)) = files s.
Proof.
  intros Hin Hn args s. table_cases Hin; first [named_excluded | handler_keeps (@files E)].
Qed.

Lemma only_hint_switches cmd :
  cmd ∈ commands -> name cmd ∉ ["hint"] ->
  forall args s, show_prompts (snd (handler cmd args s)) = show_prompts s.
Proof.
  intros Hin Hn args s. table_cases Hin; first [named_excluded | handler_keeps (@show_prompts E)].
Qed.

Lemma only_game_commands_play cmd :
  cmd ∈ commands ->
  name cmd ∉ ["start"; "move"; "pass"; "undo"; "resign"; "restart"; "save";
              "load"; "gui"] ->
  forall args s, controller (snd (handler cmd args s)) = controller s.
Proof.
  intros Hin Hn args s. table_cases Hin; first [named_excluded | handler_keeps (@controller E)].
Qed.

(** Each part of the console client is touched by its own commands only,
    whatever the line of plain text holds and whether the command succeeds
    or fails: only [exit] ends the session or clears [running]; only [save]
    and [gui] can write files; only [hint] switches the prompts; and
    [board], [status], [hint], [help], [exit], unknown commands and blank
    lines never change the game held by the controller. *)
Theorem commands_touch_only_their_part raw (s : ConsoleClient.t E) :
  plain_text raw = true ->
  let after := step raw s in
  (command_word raw <> Some "exit" ->
     fst after = None /\ running (snd after) = running s)
  /\ (command_word raw <> Some "save" -> command_word raw <> Some "gui" ->
        files (snd after) = files s)
  /\ (command_word raw <> Some "hint" ->
        show_prompts (snd after) = show_prompts s)
  /\ ((forall w, command_word raw = Some w ->
         w ∉ ["start"; "move"; "pass"; "undo"; "resign"; "restart"; "save";
              "load"; "gui"]) ->
        controller (snd after) = controller s).
Proof.
  intros _. cbv zeta. split; [|split; [|split]].
  - intros Hw. split; [apply step_returns, Hw|].
    apply (step_frame gui_launcher describe running ["exit"]).
    + intros c r p out out' f. reflexivity.
    + apply only_exit_stops.
    + intros w Hraw [->|Hin]%elem_of_cons; [congruence|].
      apply elem_of_nil in Hin. contradiction.
  - intros Hsave Hgui.
    apply (step_frame gui_launcher describe files ["save"; "gui"]).
    + intros c r p out out' f. reflexivity.
    + apply only_save_and_gui_write.
    + intros w Hraw. rewrite !elem_of_cons, elem_of_nil.
      intros [->|[->|[]]]; congruence.
  - intros Hw.
    apply (step_frame gui_launcher describe show_prompts ["hint"]).
    + intros c r p out out' f. reflexivity.
    + apply only_hint_switches.
    + intros w Hraw [->|Hin]%elem_of_cons; [congruence|].
      apply elem_of_nil in Hin. contradiction.
  - intros Hw.
    apply (step_frame gui_launcher describe controller
             ["start"; "move"; "pass"; "undo"; "resign"; "restart"; "save";
              "load"; "gui"]).
    + intros c r p out out' f. reflexivity.
    + apply only_game_commands_play.
    + exact Hw.
Qed.

(** [exit] ends the session at once, with exit code 0: while the client is
    running, a line whose first word is [exit] in any letter case, whatever
    follows it on the line, prints the farewell after the prompt, clears
    [running] and leaves the program; the lines after it are never read. *)
Theorem exit_ends_the_session raw rest (s : ConsoleClient.t E) :
  running s = true ->
  command_word raw = Some "exit" ->
  loop (raw :: rest) s
  = (Some 0,
     let s1 := if show_prompts s then say prompt_line s else s in
     say "Goodbye!"
       (ConsoleClient.mk (controller s1) false (show_prompts s1) (stdout s1)
          (files s1))).
Proof.
  intros Hrun Hw. unfold ConsoleLoop.loop. rewrite Hrun. simpl negb. cbv iota zeta.
  set (s1 := if show_prompts s then say prompt_line s else s).
  unfold ConsoleLoop.step, command_word in *.
  destruct (split raw) as [|first args]; [discriminate|].
  simpl in Hw. injection Hw as Hw. rewrite Hw. reflexivity.
Qed.

(** A session ends by [exit] or by the end of the input, and by nothing
    else: as long as no line typed is an [exit] command, whatever the other
    commands do and however they fail, the loop reads every line, the
    client is still running when the input runs out, no exit code is set,
    and the last line printed is the farewell of the end of input. *)
Theorem session_without_exit inputs (s : ConsoleClient.t E) :
  running s = true ->
  Forall (fun raw => plain_text raw = true /\ command_word raw <> Some "exit")
         inputs ->
  let after := loop inputs s in
  fst after = None
  /\ running (snd after) = true
  /\ last (stdout (snd after)) = Some (newline +:+ "Exiting...").
Proof.
  intros Hrun Hall. cbv zeta. revert s Hrun.
  induction Hall as [|raw rest [_ Hraw] _ IH]; intros s Hrun.
  - unfold ConsoleLoop.loop. rewrite Hrun. simpl negb. cbv iota zeta.
    destruct (show_prompts s); simpl;
      (split; [reflexivity|]); (split; [exact Hrun|]); apply last_snoc.
  - change (loop (raw :: rest) s)
      with (if negb (running s) then (None, s)
            else
              let s1 := if show_prompts s then say prompt_line s else s in
              match step raw s1 with
              | (Some code, s') => (Some code, s')
              | (None, s') => loop rest s'
              end).
    rewrite Hrun. simpl negb. cbv iota zeta.
    set (s1 := if show_prompts s then say prompt_line s else s).
    assert (Hrun1 : running s1 = true).
    { unfold s1. destruct (show_prompts s); [|exact Hrun]. exact Hrun. }
    pose proof (step_returns gui_launcher describe raw s1 Hraw) as Hnone.
    assert (Hkeep : running (snd (step raw s1)) = running s1).
    { apply (step_frame gui_launcher describe running ["exit"]).
      - intros c r p out out' f. reflexivity.
      - apply only_exit_stops.
      - intros w Hw [->|Hin]%elem_of_cons; [congruence|].
        apply elem_of_nil in Hin. contradiction. }
    destruct (step raw s1) as [[code|] s']; simpl in Hnone, Hkeep;
      [discriminate|].
    apply IH. rewrite Hkeep. exact Hrun1.
Qed.
End ConsoleCommands.

Section ConsoleHandlers.
Context {E : Type} `{!Engine.Ops E}.
Import ConsoleClient.

(** [hint] switches the prompts and says which way; a second [hint]
    switches them back.  After the two the client is as before, two lines
    of output added: first the new state, then the old one. *)
Theorem hint_twice_restores (args args' : list string) (s : ConsoleClient.t E) :
  let line (on : bool) := "Prompts " +:+ (if on then "enabled" else "hidden") +:+ "." in
  _cmd_hint args s
  = (Ok tt, mk (controller s) (running s) (negb (show_prompts s))
               (stdout s ++ [line (negb (show_prompts s))]) (files s))
  /\ snd (_cmd_hint args' (snd (_cmd_hint args s)))
     = mk (controller s) (running s) (show_prompts s)
          (stdout s ++ [line (negb (show_prompts s)); line (show_prompts s)])
          (files s).
Proof.
  destruct s as [c r p out f]. unfold _cmd_hint, print. run_method.
  split; [reflexivity|].
  rewrite negb_involutive. rewrite <- List.app_assoc. reflexivity.
Qed.

(** A command given the wrong number of arguments is refused with its
    usage text before anything is parsed or called: [start] and [move] take
    exactly two arguments, [save] and [load] exactly one; the client is
    untouched. *)
Theorem wrong_arity_is_refused (args : list string) (s : ConsoleClient.t E) :
  (length args <> 2%nat ->
     _cmd_start args s = (Raise (ValueError "Usage: start <gomoku|go> <size>"), s)
     /\ _cmd_move args s = (Raise (ValueError "Usage: move <row> <col>"), s))
  /\ (length args <> 1%nat ->
        _cmd_save args s = (Raise (ValueError "Usage: save <file>"), s)
        /\ _cmd_load args s = (Raise (ValueError "Usage: load <file>"), s)).
Proof.
  split; intros Hlen.
  - destruct args as [|a [|b [|c rest]]]; simpl in Hlen; try lia;
      split; reflexivity.
  - destruct args as [|a [|b rest]]; simpl in Hlen; try lia; split; reflexivity.
Qed.

Lemma cmd_start_valid (s : ConsoleClient.t E) kind size g n :
  game_type_from_string kind = Ok g ->
  py_int size = Some n ->
  8 <= n <= 19 ->
  _cmd_start [kind; size] s
  = (on_controller (GameController.start_game g n);;
     print ("Started " +:+ GameType_value g +:+ " on a " +:+ pretty n
              +:+ "x" +:+ pretty n +:+ " board.");;
     _cmd_board []) s.
Proof.
  intros Hk Hn Hr. unfold _cmd_start.
  unfold mbind at 1, M_bind at 1, lift at 1. rewrite Hk, Hn.
  unfold mbind at 1, M_bind at 1, mret at 1, M_ret at 1.
  replace ((n <? 8) || (19 <? n)) with false; [reflexivity|].
  symmetry. apply orb_false_iff. split; apply Z.ltb_ge; lia.
Qed.

Lemma start_game_run (c : GameController.t E) g n :
  GameController.start_game g n c
  = match GameController.create_engine g n with
    | Ok e => (Ok tt, GameController.mk (Some e) (Some g) n)
    | Raise err => (Raise err, c)
    end.
Proof.
  unfold GameController.start_game. run_method.
  destruct (GameController.create_engine g n); reflexivity.
Qed.

(** [start] with a known game type and a size, typed as plain text, that
    reads as an integer from 8 to 19 hands exactly that type and size to the
    controller.  If the engine cannot be built the error is passed on and
    nothing is printed or changed; otherwise the controller holds the new
    engine, the type and the size, and the first line printed announces the
    game. *)
Theorem cmd_start_reaches_controller (s : ConsoleClient.t E) kind size g n :
  game_type_from_string kind = Ok g ->
  plain_text size = true ->
  py_int size = Some n ->
  8 <= n <= 19 ->
  match GameController.create_engine g n with
  | Raise err => _cmd_start [kind; size] s = (Raise err, s)
  | Ok e =>
      controller (snd (_cmd_start [kind; size] s))
      = GameController.mk (Some e) (Some g) n
      /\ exists more,
           stdout (snd (_cmd_start [kind; size] s))
           = stdout s
             ++ ("Started " +:+ GameType_value g +:+ " on a " +:+ pretty n
                   +:+ "x" +:+ pretty n +:+ " board.") :: more
  end.
Proof.
  intros Hk _ Hn Hr.
  assert (Hrun : _cmd_start [kind; size] s
                 = match GameController.create_engine g n with
                   | Raise err => (Raise err, s)
                   | Ok e =>
                       (print ("Started " +:+ GameType_value g +:+ " on a "
                                 +:+ pretty n +:+ "x" +:+ pretty n +:+ " board.");;
                        _cmd_board [])
                         (set_controller (GameController.mk (Some e) (Some g) n) s)
                   end).
  { rewrite (cmd_start_valid s kind size g n Hk Hn Hr).
    unfold mbind at 1, M_bind at 1, on_controller at 1, zoom.
    rewrite start_game_run.
    destruct (GameController.create_engine g n); [reflexivity|].
    destruct s; reflexivity. }
  destruct (GameController.create_engine g n) as [e|err]; [|exact Hrun].
  rewrite Hrun. clear Hrun.
  unfold _cmd_board, mbind, M_bind, on_controller, zoom, print, modify.
  cbn [controller stdout set_controller fst snd].
  pose proof (proj1 (views_unchanged (GameController.mk (Some e) (Some g) n)))
    as Hview.
  destruct (GameController.get_board_display (GameController.mk (Some e) (Some g) n))
    as [[text|err] c']; simpl in Hview; subst c'; simpl.
  - split; [reflexivity|]. exists [text]. rewrite <- List.app_assoc. reflexivity.
  - split; [reflexivity|]. exists []. reflexivity.
Qed.
End ConsoleHandlers.

Section NotifyOnce.
Context {E : Type} `{!Engine.Ops E} {Area : Type}.

(** The end of a game is announced once: whatever the window and the
    engine, running [_notify_game_end] a second time right after the first
    changes nothing more, so no second dialog appears until
    [_result_notified] is reset by a new game. *)
Theorem game_end_is_notified_once (g : GuiApp.t E Area) :
  snd (GuiApp._notify_game_end (snd (GuiApp._notify_game_end g)))
  = snd (GuiApp._notify_game_end g).
Proof.
  unfold GuiApp._notify_game_end. run_method.
  destruct (GameController.engine (GuiApp.controller g)) as [e|] eqn:He;
    simpl; rewrite ?He; [|reflexivity].
  destruct (negb (Engine.is_finished e) || GuiApp._result_notified g) eqn:Hskip;
    simpl; rewrite ?He, ?Hskip; [reflexivity|].
  destruct (Engine.get_result e) as [r|err] eqn:Hr; simpl;
    rewrite ?He, ?Hskip, ?Hr; [|reflexivity].
  rewrite orb_true_r. reflexivity.
Qed.
End NotifyOnce.

(** The statements on the console and the remaining ones on the window at
    concrete states. *)
Section SampleSessions.
#[local] Existing Instance Samples.ops.
Import ConsoleClient ConsoleLoop GuiHandlers.

Lemma pass_button_on_samples :
  _update_pass_button_state WindowSamples.window_go_9 = true
  /\ _update_pass_button_state WindowSamples.window_gomoku_15 = false
  /\ (exists e, GameController.engine Samples.go_9 = Some e
                /\ GameController.pass_turn Samples.go_9
                   = GameController.on_engine Engine.pass_turn Samples.go_9)
  /\ (exists msg, GameController.pass_turn Samples.gomoku_15
                  = (Raise (ValueError msg), Samples.gomoku_15)).
Proof.
  split; [reflexivity|]. split; [reflexivity|]. split.
  - apply (proj1 (pass_button_mirrors_pass_turn WindowSamples.window_go_9)).
    reflexivity.
  - apply (proj2 (pass_button_mirrors_pass_turn WindowSamples.window_gomoku_15)).
    reflexivity.
Defined.

Lemma blank_and_unknown_on_fresh_console :
  let s := ConsoleSamples.fresh_console in
  blank "   " = true
  /\ step ConsoleSamples.no_gui ConsoleSamples.describe "   " s = (None, s)
  /\ plain_text "Fly  to the moon" = true
  /\ command_word "Fly  to the moon" = Some "fly"
  /\ step ConsoleSamples.no_gui ConsoleSamples.describe "Fly  to the moon" s
     = (None, say "Unknown command. Type 'help' for a list of commands." s).
Proof.
  pose proof (blank_and_unknown_lines ConsoleSamples.no_gui ConsoleSamples.describe)
    as Hlines.
  split; [reflexivity|]. split; [apply (Hlines "   "); reflexivity|].
  split; [reflexivity|]. split; [reflexivity|].
  apply (proj2 (Hlines "Fly  to the moon" ConsoleSamples.fresh_console)
           eq_refl "fly");
    [reflexivity|].
  unfold command_names. intros Hin.
  repeat (apply elem_of_cons in Hin as [Hin|Hin]; [discriminate Hin|]).
  apply elem_of_nil in Hin. exact Hin.
Defined.

Lemma status_line_touches_nothing :
  let s := UiSamples.console_go_9 in
  let after := step ConsoleSamples.no_gui ConsoleSamples.describe "STATUS now" s in
  plain_text "STATUS now" = true
  /\ command_word "STATUS now" = Some "status"
  /\ fst after = None
  /\ running (snd after) = running s
  /\ files (snd after) = files s
  /\ show_prompts (snd after) = show_prompts s
  /\ controller (snd after) = controller s.
Proof.
  destruct (commands_touch_only_their_part ConsoleSamples.no_gui
              ConsoleSamples.describe "STATUS now" UiSamples.console_go_9
              eq_refl)
    as (Hexit & Hfiles & Hhint & Hgame).
  split; [reflexivity|]. split; [reflexivity|].
  split; [apply Hexit; vm_compute; discriminate|].
  split; [apply Hexit; vm_compute; discriminate|].
  split; [apply Hfiles; vm_compute; discriminate|].
  split; [apply Hhint; vm_compute; discriminate|].
  apply Hgame. intros w Hw. vm_compute in Hw. injection Hw as <-. intros Hin.
  repeat (apply elem_of_cons in Hin as [Hin|Hin]; [discriminate Hin|]).
  apply elem_of_nil in Hin. exact Hin.
Defined.

Lemma exit_in_capitals :
  let s := ConsoleSamples.fresh_console in
  running s = true
  /\ command_word "EXIT now please" = Some "exit"
  /\ fst (loop ConsoleSamples.no_gui ConsoleSamples.describe
            ["EXIT now please"; "start go 9"] s) = Some 0
  /\ stdout (snd (loop ConsoleSamples.no_gui ConsoleSamples.describe
                    ["EXIT now please"; "start go 9"] s))
     = [prompt_line; "Goodbye!"].
Proof.
  split; [reflexivity|]. split; [reflexivity|].
  rewrite (exit_ends_the_session ConsoleSamples.no_gui ConsoleSamples.describe
             "EXIT now please" ["start go 9"] ConsoleSamples.fresh_console
             eq_refl eq_refl).
  split; reflexivity.
Defined.

Lemma start_without_arguments :
  let s := ConsoleSamples.fresh_console in
  length (@nil string) <> 2%nat
  /\ _cmd_start [] s = (Raise (ValueError "Usage: start <gomoku|go> <size>"), s)
  /\ length ["a"; "b"] <> 1%nat
  /\ _cmd_load ["a"; "b"] s = (Raise (ValueError "Usage: load <file>"), s).
Proof.
  assert (H0 : length (@nil string) <> 2%nat) by (simpl; lia).
  assert (H2 : length ["a"; "b"] <> 1%nat) by (simpl; lia).
  split; [exact H0|].
  split; [apply (proj1 (wrong_arity_is_refused [] ConsoleSamples.fresh_console) H0)|].
  split; [exact H2|].
  apply (proj2 (wrong_arity_is_refused ["a"; "b"] ConsoleSamples.fresh_console) H2).
Defined.

Lemma start_go_9_on_fresh_console :
  let s := ConsoleSamples.fresh_console in
  game_type_from_string "go" = Ok GO
  /\ plain_text "9" = true
  /\ py_int "9" = Some 9
  /\ controller (snd (_cmd_start ["go"; "9"] s)) = Samples.go_9
  /\ exists more,
       stdout (snd (_cmd_start ["go"; "9"] s))
       = stdout s ++ "Started go on a 9x9 board." :: more.
Proof.
  split; [reflexivity|]. split; [reflexivity|]. split; [reflexivity|].
  assert (Hr : 8 <= 9 <= 19) by lia.
  exact (cmd_start_reaches_controller ConsoleSamples.fresh_console "go" "9" GO 9
           eq_refl eq_refl eq_refl Hr).
Defined.

Lemma session_of_three_lines :
  let s := ConsoleSamples.fresh_console in
  let inputs := ["pass"; "hint"; "Start go 9"] in
  let after := loop ConsoleSamples.no_gui ConsoleSamples.describe inputs s in
  running s = true
  /\ Forall (fun raw => plain_text raw = true /\ command_word raw <> Some "exit")
            inputs
  /\ fst after = None
  /\ running (snd after) = true
  /\ last (stdout (snd after)) = Some (newline +:+ "Exiting...").
Proof.
  assert (Hall : Forall (fun raw => plain_text raw = true
                                    /\ command_word raw <> Some "exit")
                        ["pass"; "hint"; "Start go 9"]).
  { repeat constructor; vm_compute; discriminate. }
  split; [reflexivity|]. split; [exact Hall|].
  exact (session_without_exit ConsoleSamples.no_gui ConsoleSamples.describe
           ["pass"; "hint"; "Start go 9"] ConsoleSamples.fresh_console
           eq_refl Hall).
Defined.
End SampleSessions.
